(** * OnlineShopping: the versioned 'Transaction' ledger

    A shallow embedding of [OnlineShopping_v2.py] (and of the unrolled
    [OnlineShopping.py], whose three per-day blocks are the same statements
    without the functions): the text loader [Execute], the fixed-width
    decoder [Usable], the snapshot [Final_data], [Insert], the matching loop
    [Main_logic], the driver [processOnlineshopping] and [main].

    The SQLite table is a list of rows in rowid order; the statements the
    program sends are functions on that list, threaded through a state and
    exception monad, so that the table reached when a statement raises is
    part of the result. The table is the one seen through the connection
    [conn]; what a commit makes durable is always an earlier state of it.
    The table is taken to exist, as it does once [main] has created it, and
    the database to be available: a locked or full database is not
    modelled.

    The program builds the text of its INSERT and UPDATE statements from
    its data. For data of the usual shape the model reads these statements
    itself: records of plain printable text are stored as they are, and ids
    that are integers are compared as SQLite compares them. What SQLite
    makes of any other text is not computed here: it is a parameter of the
    program ([Sqlite]), and every theorem holds whatever it is. *)

From Stdlib Require Import String Ascii List ZArith Lia Bool Arith Sorted.
Import ListNotations.
Open Scope string_scope.
Open Scope list_scope.

(** ** Python values used by the program *)

Module Py.

(** Exceptions that the modelled statements raise: those of [open] and
    [read], the [ValueError] of [list.remove] and those of [sqlite3]. *)
Inductive exn : Type :=
| FileNotFoundError
| PermissionError
| IsADirectoryError
| OSError
| UnicodeDecodeError
| ValueError
| OperationalError
| ProgrammingError.

Inductive result (A : Type) : Type :=
| Ok (a : A)
| Raise (e : exn).
Arguments Ok {A} a.
Arguments Raise {A} e.

(** [s[a:b]] for literal bounds [0 <= a], [0 <= b]: both bounds are clamped
    to [len(s)], and an empty range gives the empty string. *)
Definition slice (a b : nat) (s : string) : string :=
  let n := String.length s in
  let lo := Nat.min a n in
  let hi := Nat.min b n in
  substring lo (hi - lo) s.

(** [s.split(sep)] for a one-character separator: always at least one
    piece, and a separator at the end leaves a final empty piece. *)
Fixpoint split (sep : ascii) (s : string) : list string :=
  match s with
  | EmptyString => [EmptyString]
  | String c s' =>
      if Ascii.eqb c sep then EmptyString :: split sep s'
      else match split sep s' with
           | piece :: pieces => String c piece :: pieces
           | [] => [String c EmptyString]
           end
  end.

(** [l.remove(x)]: deletes the first element equal to [x], and raises
    [ValueError] when there is none. *)
Fixpoint remove (x : string) (l : list string) : result (list string) :=
  match l with
  | [] => Raise ValueError
  | y :: l' =>
      if String.eqb y x then Ok l'
      else match remove x l' with
           | Ok r => Ok (y :: r)
           | Raise e => Raise e
           end
  end.

Definition newline : ascii := ascii_of_nat 10.

End Py.

Import Py.

(** ** The 'Transaction' table *)

(** The dictionary that [Usable] builds for one line: thirteen text fields,
    in the order of the [update] calls. *)
Record Transaction : Type := mkTransaction {
  Transaction_Id : string;
  Customer_Id : string;
  Customer_Name : string;
  Customer_Addr_Id : string;
  Product_Id : string;
  Product_Nm : string;
  ProductPrice : string;
  ProductQuantity : string;
  Status : string;
  Transaction_time_stamp : string;
  Ordered_Date : string;
  Shipment_Date : string;
  Delivered_Date : string
}.

(** One row of the table, which is also one dictionary of [Final_data]:
    the rowid column [Sequence], the thirteen text columns and
    [ACTIVE_IND]. *)
Record Row : Type := mkRow {
  Sequence : Z;
  columns : Transaction;
  ACTIVE_IND : string
}.

Definition Table : Type := list Row.

(** The thirteen values of a dictionary of [Usable], in the order of its
    [update] calls, which is the order [Insert] reads them in. *)
Definition fields (d : Transaction) : list string :=
  [Transaction_Id d; Customer_Id d; Customer_Name d; Customer_Addr_Id d;
   Product_Id d; Product_Nm d; ProductPrice d; ProductQuantity d; Status d;
   Transaction_time_stamp d; Ordered_Date d; Shipment_Date d; Delivered_Date d].

Module Sql.

Definition is_space (c : ascii) : bool := Ascii.eqb c " ".

Definition is_digit (c : ascii) : bool :=
  let n := nat_of_ascii c in (48 <=? n)%nat && (n <=? 57)%nat.

Fixpoint lstrip (s : string) : string :=
  match s with
  | String c s' => if is_space c then lstrip s' else s
  | EmptyString => EmptyString
  end.

Fixpoint rstrip (s : string) : string :=
  match s with
  | EmptyString => EmptyString
  | String c s' =>
      match rstrip s' with
      | EmptyString => if is_space c then EmptyString else String c EmptyString
      | r => String c r
      end
  end.

Fixpoint all_digits (s : string) : bool :=
  match s with
  | EmptyString => true
  | String c s' => is_digit c && all_digits s'
  end.

Fixpoint strip_zeros (s : string) : string :=
  match s with
  | String c s' => if Ascii.eqb c "0" then strip_zeros s' else s
  | EmptyString => EmptyString
  end.

(** The UPDATE statement splices the three key texts into the WHERE clause
    without quotes, so SQLite reads each as an expression, not as a string.
    [unquoted_literal s] is the text that a TEXT column is compared with
    when [s] is a decimal integer, possibly padded with spaces: the integer
    rendered back as text, that is without leading zeros (the column has
    TEXT affinity, so the integer operand is converted to text before the
    comparison). The model stops at 18 digits, below the 64-bit limit where
    SQLite switches to floating point. [None] says that [s] is not such an
    integer, and nothing more: what SQLite makes of it (a syntax error, an
    unknown name, the name of a column, another expression) is then asked
    of the [Sqlite] parameter below. *)
Definition unquoted_literal (s : string) : option string :=
  let tok := rstrip (lstrip s) in
  match tok with
  | EmptyString => None
  | String _ _ =>
      if all_digits tok then
        match strip_zeros tok with
        | EmptyString => Some "0"
        | d => if (String.length d <=? 18)%nat then Some d else None
        end
      else None
  end.

(** A character that Python's [repr] prints as itself between single
    quotes and that SQLite reads back as itself from there: printable
    ASCII, except the single quote and the backslash. *)
Definition plain_char (c : ascii) : bool :=
  let n := nat_of_ascii c in
  (32 <=? n)%nat && (n <=? 126)%nat
  && negb (n =? 39)%nat && negb (n =? 92)%nat.

Fixpoint plain_text (s : string) : bool :=
  match s with
  | EmptyString => true
  | String c s' => plain_char c && plain_text s'
  end.

(** The rowid that SQLite gives to a row inserted without one into a table
    whose INTEGER PRIMARY KEY is not AUTOINCREMENT: one more than the
    largest rowid in use, and 1 in an empty table. *)
Definition next_rowid (t : Table) : Z :=
  match t with
  | [] => 1
  | r :: t' => fold_left Z.max (map Sequence t') (Sequence r) + 1
  end.

(** The effect of an INSERT that stores the thirteen texts [d] and the
    indicator [ind]: one row more, at the end, with the next rowid. *)
Definition insert_values (d : Transaction) (ind : string) (t : Table) : Table :=
  t ++ [mkRow (next_rowid t) d ind].

(** The effect of an INSERT that stores several rows, each with its
    thirteen texts and its indicator: they are added one after the other. *)
Definition insert_rows (rows : list (Transaction * string)) (t : Table) : Table :=
  fold_left (fun t' row => insert_values (fst row) (snd row) t') rows t.

Definition where_key (a b c : string) (r : Row) : bool :=
  String.eqb (Transaction_Id (columns r)) a
  && String.eqb (Customer_Id (columns r)) b
  && String.eqb (Product_Id (columns r)) c.

Definition set_inactive (r : Row) : Row :=
  mkRow (Sequence r) (columns r) "N".

(** The effect of [UPDATE 'Transaction' SET ACTIVE_IND = 'N' WHERE ...]
    when the WHERE clause selects the rows that satisfy [p]. *)
Definition update_where (p : Row -> bool) (t : Table) : Table :=
  map (fun r => if p r then set_inactive r else r) t.

(** [UPDATE 'Transaction' SET ACTIVE_IND = 'N' WHERE Transaction_Id = a
    and Customer_Id = b and Product_Id = c], the three operands already
    read as literals: every row that satisfies the WHERE clause is
    updated. *)
Definition update_inactive (a b c : string) (t : Table) : Table :=
  map (fun r => if where_key a b c r then set_inactive r else r) t.

End Sql.

(** A dictionary whose thirteen texts are all plain. *)
Definition plain_record (d : Transaction) : bool :=
  forallb Sql.plain_text (fields d).

(** What SQLite does with the statements that the model does not read
    itself.

    [other_values d t] is for an INSERT whose VALUES text, Python's [str]
    of the tuple, holds a text that is not plain, sent when the table is
    [t]. Quotes, backslashes, control and non-ASCII characters are escaped
    by [repr], which SQLite does not read as Python does: a literal may end
    early or late, and what follows it is then read as SQL. The statement
    is still one INSERT into the fourteen columns named in it, never into
    [Sequence]; it gives the rows that the statement adds, each with the
    texts of its thirteen columns and of [ACTIVE_IND], or the exception
    that [c.execute] raises.

    [other_where a b c t] is for an UPDATE whose three spliced ids are not
    all integers, sent when the table is [t]. The statement is still one
    UPDATE that sets [ACTIVE_IND] to 'N'; it gives the rows that the WHERE
    clause selects, or the exception that [c.execute] raises.

    Every column of the table is declared VARCHAR, so has TEXT affinity:
    the values of a row are taken to be texts. *)
Record Sqlite : Type := {
  other_values : Transaction -> Table -> result (list (Transaction * string));
  other_where : string -> string -> string -> Table -> result (Row -> bool)
}.

(** ** The connection: table state and exceptions *)

Definition M (A : Type) : Type := Table -> result A * Table.

Definition ret {A : Type} (a : A) : M A := fun t => (Ok a, t).

Definition raise {A : Type} (e : exn) : M A := fun t => (Raise e, t).

Definition bind {A B : Type} (m : M A) (k : A -> M B) : M B :=
  fun t =>
    match m t with
    | (Ok a, t') => k a t'
    | (Raise e, t') => (Raise e, t')
    end.

Declare Scope conn_scope.
Delimit Scope conn_scope with conn.
Notation "x <- m ;; k" := (bind m (fun x => k))
  (at level 61, m at next level, right associativity) : conn_scope.
Notation "m ;; k" := (bind m (fun _ => k))
  (at level 61, right associativity) : conn_scope.
Open Scope conn_scope.

Definition lift {A : Type} (r : result A) : M A := fun t => (r, t).

(** A Python [for x in xs: body(x)] whose body runs in the connection. *)
Fixpoint for_each {A : Type} (xs : list A) (body : A -> M unit) : M unit :=
  match xs with
  | [] => ret tt
  | x :: xs' => body x ;; for_each xs' body
  end.

(** The table after running [m] from [t], whether [m] returned or raised. *)
Definition table_after {A : Type} (m : M A) (t : Table) : Table := snd (m t).

Definition outcome {A : Type} (m : M A) (t : Table) : result A := fst (m t).

(** ** The program *)

Section Program.

(** What [open(file_name)] followed by [read()] gives: the text of the
    file, newlines translated, or the exception that either raises. *)
Variable fs : string -> result string.

(** SQLite, for the statements outside the modelled fragment. *)
Variable db : Sqlite.

(** [Execute(file_name)]: read, split at newlines, remove the blank row. *)
Definition Execute (file_name : string) : result (list string) :=
  match fs file_name with
  | Raise e => Raise e
  | Ok data => remove "" (split newline data)
  end.

(** The body of the loop of [Usable]: the dictionary of one line. *)
Definition decode (i : string) : Transaction :=
  {| Transaction_Id := slice 0 6 i;
     Customer_Id := slice 6 12 i;
     Customer_Name := slice 12 32 i;
     Customer_Addr_Id := slice 32 37 i;
     Product_Id := slice 37 44 i;
     Product_Nm := slice 44 74 i;
     ProductPrice := slice 74 80 i;
     ProductQuantity := slice 80 84 i;
     Status := slice 84 96 i;
     Transaction_time_stamp := slice 96 116 i;
     Ordered_Date := slice 116 127 i;
     Shipment_Date := slice 127 138 i;
     Delivered_Date := slice 138 149 i |}.

(** [Usable(data)]: [lst] starts empty and gets one [append] per line. *)
Definition Usable (data : list string) : list Transaction :=
  fold_left (fun lst i => lst ++ [decode i]) data [].

(** [Final_data()]: [SELECT * FROM 'Transaction'], every row of the table
    in rowid order, each turned into a dictionary keyed by column name. *)
Definition Final_data : M (list Row) := fun t => (Ok t, t).

(** The rows that the INSERT of [Insert] adds for [dctnry] when the table
    is [t]: one row with the texts themselves and the indicator 'Y' when
    the texts are plain, what SQLite makes of the statement otherwise. *)
Definition stored (dctnry : Transaction) (t : Table)
  : result (list (Transaction * string)) :=
  if plain_record dctnry then Ok [(dctnry, "Y")] else other_values db dctnry t.

(** [Insert(dctnry)]: the dictionary gets [ACTIVE_IND = 'Y'] and its
    values are sent as [INSERT INTO 'Transaction' (...) VALUES] followed by
    [str] of their tuple; [c.execute] raises when SQLite refuses the
    statement. *)
Definition Insert (dctnry : Transaction) : M unit :=
  fun t =>
    match stored dctnry t with
    | Ok rows => (Ok tt, Sql.insert_rows rows t)
    | Raise e => (Raise e, t)
    end.

(** The rows that the WHERE clause of the UPDATE selects when the ids [a],
    [b], [c] are spliced into it and the table is [t]: for integers, the
    rows whose three columns hold the integers as text; what SQLite makes
    of the statement otherwise. *)
Definition selected (a b c : string) (t : Table) : result (Row -> bool) :=
  match Sql.unquoted_literal a, Sql.unquoted_literal b, Sql.unquoted_literal c with
  | Some a', Some b', Some c' => Ok (Sql.where_key a' b' c')
  | _, _, _ => other_where db a b c t
  end.

(** The UPDATE of [Main_logic], as [c.execute] runs it, with the ids of
    the matched dictionary [j]. *)
Definition execute_update (j : Row) : M unit :=
  fun t =>
    match selected (Transaction_Id (columns j)) (Customer_Id (columns j))
                   (Product_Id (columns j)) t with
    | Ok p => (Ok tt, Sql.update_where p t)
    | Raise e => (Raise e, t)
    end.

(** The test of the inner loop of [Main_logic]. *)
Definition same_key (j : Row) (dctnry : Transaction) : bool :=
  String.eqb (Transaction_Id (columns j)) (Transaction_Id dctnry)
  && String.eqb (Customer_Id (columns j)) (Customer_Id dctnry)
  && String.eqb (Product_Id (columns j)) (Product_Id dctnry).

(** The inner loop of [Main_logic], [for j in final_data], for one
    [dctnry]; the value returned is [flag]. At the first [j] with the
    same three ids: UPDATE, [Insert], [break]. *)
Fixpoint match_loop (dctnry : Transaction) (final_data : list Row) : M bool :=
  match final_data with
  | [] => ret false
  | j :: rest =>
      if same_key j dctnry then
        execute_update j ;; Insert dctnry ;; ret true
      else match_loop dctnry rest
  end.

(** [Main_logic(lst, final_data)]. *)
Definition Main_logic (lst : list Transaction) (final_data : list Row) : M unit :=
  for_each lst (fun dctnry =>
    flag <- match_loop dctnry final_data ;;
    if flag then ret tt else Insert dctnry).

(** [processOnlineshopping(file_name)]; the [Print()] it ends with only
    reads the table. *)
Definition processOnlineshopping (file_name : string) : M unit :=
  data <- lift (Execute file_name) ;;
  let lst := Usable data in
  if String.eqb file_name "Day1.txt" then
    for_each lst Insert
  else
    final_data <- Final_data ;;
    Main_logic lst final_data.

(** [DROP TABLE IF EXISTS] followed by [CREATE TABLE]. *)
Definition create_table : M unit := fun _ => (Ok tt, []).

Definition main : M unit :=
  create_table ;;
  processOnlineshopping "Day1.txt" ;;
  processOnlineshopping "Day2.txt" ;;
  processOnlineshopping "Day3.txt".

(** Any number of days run one after the other on the same table, as
    [main] does for three. *)
Definition batch_runs (file_names : list string) : M unit :=
  for_each file_names processOnlineshopping.

(** One turn of the outer loop of [Main_logic]. *)
Definition turn (final_data : list Row) (dctnry : Transaction) : M unit :=
  flag <- match_loop dctnry final_data ;;
  if flag then ret tt else Insert dctnry.

(** What a turn of [Main_logic] comes to for a record, said without the
    loop: the first row of the snapshot with the three ids of the record,
    whatever its indicator, is looked for; when there is one, the UPDATE
    with its ids and then the insertion; when there is none, the
    insertion alone. *)
Definition reconcile (snapshot : list Row) (dctnry : Transaction) : M unit :=
  match find (fun j => same_key j dctnry) snapshot with
  | Some j => execute_update j ;; Insert dctnry
  | None => Insert dctnry
  end.

End Program.

(** An SQLite that refuses every statement outside the modelled fragment.
    It is the one used where the program is run on sample data, all of
    which is inside the fragment, except for ids that are words, which
    SQLite does refuse (no such column). *)
Definition sqlite_strict : Sqlite :=
  {| other_values := fun _ _ => Raise OperationalError;
     other_where := fun _ _ _ _ => Raise OperationalError |}.

(** ** Views of the table used in the statements *)

Definition key_of (d : Transaction) : string * string * string :=
  (Transaction_Id d, Customer_Id d, Product_Id d).

Definition row_key (r : Row) : string * string * string := key_of (columns r).

Definition is_active (r : Row) : bool := String.eqb (ACTIVE_IND r) "Y".

Definition key_eqb (k1 k2 : string * string * string) : bool :=
  let '(a1, b1, c1) := k1 in
  let '(a2, b2, c2) := k2 in
  String.eqb a1 a2 && String.eqb b1 b2 && String.eqb c1 c2.

(** The rows of [t] that carry the key [k]. *)
Definition rows_of_key (k : string * string * string) (t : Table) : list Row :=
  filter (fun r => key_eqb (row_key r) k) t.

Definition active_count (k : string * string * string) (t : Table) : nat :=
  length (filter is_active (rows_of_key k t)).

(** A key that the UPDATE reads back as itself: three decimal integers
    without padding or leading zeros. *)
Definition canonical_key (k : string * string * string) : Prop :=
  let '(a, b, c) := k in
  Sql.unquoted_literal a = Some a
  /\ Sql.unquoted_literal b = Some b
  /\ Sql.unquoted_literal c = Some c.

(** [field] is the part of [line] from offset [a] up to, not including,
    offset [b], character by character; where the line ends earlier, so
    does the field. *)
Definition is_slice_of (a b : nat) (line field : string) : Prop :=
  forall n : nat,
    String.get n field =
    if (n <? b - a)%nat then String.get (a + n) line else None.

(** The lines that the loader would keep if it dropped every blank line. *)
Definition without_blank_lines (text : string) : list string :=
  filter (fun line => negb (String.eqb line "")) (split newline text).

(** What identifies a row for good: its number and its thirteen columns.
    Only [ACTIVE_IND] is ever rewritten. *)
Definition identity (r : Row) : Z * Transaction := (Sequence r, columns r).

(** [t'] holds the rows of [t], in place, followed by rows added since. *)
Definition grows (t t' : Table) : Prop :=
  exists added : list (Z * Transaction),
    map identity t' = map identity t ++ added.

(** The numbers go up along the table. *)
Definition ascending (t : Table) : Prop :=
  StronglySorted Z.lt (map Sequence t).

(** [m] takes every table to one related to it by [R], whether it returns
    or raises. *)
Definition preserves (R : Table -> Table -> Prop) {A : Type} (m : M A) : Prop :=
  forall t : Table, R t (table_after m t).

(** The three operands of the WHERE clause as SQLite reads them, when it
    reads all three. *)
Definition literal_key (k : string * string * string)
  : option (string * string * string) :=
  let '(a, b, c) := k in
  match Sql.unquoted_literal a, Sql.unquoted_literal b, Sql.unquoted_literal c with
  | Some a', Some b', Some c' => Some (a', b', c')
  | _, _, _ => None
  end.

(** The rows that a run of insertions adds: one active row per record, in
    order, numbered from [s] on. *)
Fixpoint baseline_rows (s : Z) (lst : list Transaction) : list Row :=
  match lst with
  | [] => []
  | d :: lst' => mkRow s d "Y" :: baseline_rows (s + 1) lst'
  end.

(** ** Sample extracts *)

Definition nl : string := String newline "".

(** A full line of 149 characters for the key (100001, 200001, 3000001),
    with the given four characters of quantity. *)
Definition sample_line (quantity : string) : string :=
  ("100001" ++ "200001" ++ "Asha Verma          " ++ "A0001" ++ "3000001"
   ++ "Desk lamp                     " ++ "000499" ++ quantity
   ++ "Ordered     " ++ "2020-01-01 10:00:00 " ++ "2020-01-01 "
   ++ "2020-01-03 " ++ "2020-01-05 ")%string.

Definition sample_key : string * string * string :=
  ("100001", "200001", "3000001").

(** Day 1 holds the key once; day 2 holds it twice; day 3 once. *)
Definition files_repeat_on_day2 (file_name : string) : result string :=
  if String.eqb file_name "Day1.txt" then
    Ok (sample_line "0001" ++ nl)%string
  else if String.eqb file_name "Day2.txt" then
    Ok (sample_line "0002" ++ nl ++ sample_line "0003" ++ nl)%string
  else if String.eqb file_name "Day3.txt" then
    Ok (sample_line "0004" ++ nl)%string
  else Raise FileNotFoundError.

(** A line whose three ids are words, not integers. *)
Definition sample_line_words : string :=
  ("T00001" ++ "C00001" ++ "Asha Verma          " ++ "A0001" ++ "P000001"
   ++ "Desk lamp                     " ++ "000499" ++ "0001"
   ++ "Ordered     " ++ "2020-01-01 10:00:00 " ++ "2020-01-01 "
   ++ "2020-01-03 " ++ "2020-01-05 ")%string.

(** The same single line on day 1 and on day 2. *)
Definition files_words (file_name : string) : result string :=
  if String.eqb file_name "Day1.txt" then Ok (sample_line_words ++ nl)%string
  else if String.eqb file_name "Day2.txt" then Ok (sample_line_words ++ nl)%string
  else Raise FileNotFoundError.

(** Day 1 holds the key twice; day 2 holds it once. *)
Definition files_repeat_on_day1 (file_name : string) : result string :=
  if String.eqb file_name "Day1.txt" then
    Ok (sample_line "0001" ++ nl ++ sample_line "0002" ++ nl)%string
  else if String.eqb file_name "Day2.txt" then
    Ok (sample_line "0003" ++ nl)%string
  else Raise FileNotFoundError.

(** ** Further views of texts, records and tables *)

(** How many times [c] occurs in [s]. *)
Fixpoint count_char (c : ascii) (s : string) : nat :=
  match s with
  | EmptyString => 0
  | String c' s' => (if Ascii.eqb c' c then 1 else 0) + count_char c s'
  end.

(** [c] does not occur in [s]. *)
Fixpoint free_of (c : ascii) (s : string) : bool :=
  match s with
  | EmptyString => true
  | String c' s' => negb (Ascii.eqb c' c) && free_of c s'
  end.

(** The text of a file whose lines are [lines], each ended by a newline. *)
Fixpoint join_lines (lines : list string) : string :=
  match lines with
  | [] => EmptyString
  | l :: ls => (l ++ String newline (join_lines ls))%string
  end.

(** The bounds of the thirteen slices of [Usable]. *)
Definition layout : list (nat * nat) :=
  [(0, 6); (6, 12); (12, 32); (32, 37); (37, 44); (44, 74); (74, 80);
   (80, 84); (84, 96); (96, 116); (116, 127); (127, 138); (138, 149)]%nat.

(** The fields of a dictionary put end to end. *)
Definition record_text (d : Transaction) : string :=
  fold_right String.append EmptyString (fields d).

(** The rows are numbered 1, 2, 3, ... along the table. *)
Definition numbered (t : Table) : Prop :=
  map Sequence t = map Z.of_nat (seq 1 (length t)).

(** Row by row, [t'] has the indicator of [t] or 'N'. *)
Definition only_retires (t t' : Table) : Prop :=
  forall (n : nat) (r : Row),
    nth_error t n = Some r ->
    exists r' : Row,
      nth_error t' n = Some r'
      /\ (ACTIVE_IND r' = ACTIVE_IND r \/ ACTIVE_IND r' = "N").

Definition key_in_batch (k : string * string * string) (lst : list Transaction) : bool :=
  existsb (fun d => key_eqb (key_of d) k) lst.

Definition key_in_table (k : string * string * string) (t : Table) : bool :=
  existsb (fun j => key_eqb (row_key j) k) t.

Definition occurrences (k : string * string * string) (lst : list Transaction) : nat :=
  length (filter (fun d => key_eqb (key_of d) k) lst).

(** What the matching and the numbering can see of a row. *)
Definition skeleton (r : Row) : Z * (string * string * string) * string :=
  (Sequence r, row_key r, ACTIVE_IND r).

(** Every piece of [text] between newlines decodes to a dictionary of
    plain texts. *)
Definition plain_lines (text : string) : bool :=
  forallb (fun i => plain_record (decode i)) (split newline text).

(** The number of lines that [Execute] returns for a file, when it does. *)
Definition lines_of_file (fs : string -> result string) (file_name : string) : nat :=
  match fs file_name with
  | Ok text => count_char newline text
  | Raise _ => 0%nat
  end.

(** ** The unrolled script

    [OnlineShopping.py] has no functions: the statements of a day are
    written out once per day, at top level, after the table is dropped and
    created. The blocks of day 2 and day 3 are the same statements on
    [Day2.txt] and [Day3.txt]. *)

Section Script.

Variable fs : string -> result string.
Variable db : Sqlite.









End Script.

(** A line whose three ids carry leading zeros. *)
Definition sample_line_zeros (quantity : string) : string :=
  ("000120" ++ "000034" ++ "Asha Verma          " ++ "A0001" ++ "0000567"
   ++ "Desk lamp                     " ++ "000499" ++ quantity
   ++ "Ordered     " ++ "2020-01-01 10:00:00 " ++ "2020-01-01 "
   ++ "2020-01-03 " ++ "2020-01-05 ")%string.

(** A second key of plain integers. *)
Definition other_line (quantity : string) : string :=
  ("100002" ++ "200002" ++ "Ravi Iyer           " ++ "A0002" ++ "3000002"
   ++ "Floor mat                     " ++ "000250" ++ quantity
   ++ "Ordered     " ++ "2020-01-02 09:30:00 " ++ "2020-01-02 "
   ++ "2020-01-04 " ++ "2020-01-06 ")%string.

(** * Properties *)

(** ** Slices, [split] and [remove] *)

Example split_keeps_final_piece :
  split newline (String "a" (String newline (String "b" (String newline ""))))
  = ["a"; "b"; ""].
Proof. reflexivity. Qed.

Example slice_of_short_line :
  slice 0 6 "1000012000" = "100001"
  /\ slice 6 12 "1000012000" = "2000"
  /\ slice 12 32 "1000012000" = "".
Proof. repeat split. Qed.

Example sample_line_decoded :
  String.length (sample_line "0001") = 149%nat
  /\ key_of (decode (sample_line "0001")) = sample_key
  /\ ProductQuantity (decode (sample_line "0001")) = "0001"
  /\ Delivered_Date (decode (sample_line "0001")) = "2020-01-05 ".
Proof. vm_compute. repeat split. Qed.

(** How the WHERE clause reads an id: an integer comes back without
    padding and without leading zeros; a word or an empty text is not read
    as an integer. *)
Example unquoted_ids :
  Sql.unquoted_literal "100001" = Some "100001"
  /\ Sql.unquoted_literal "000120" = Some "120"
  /\ Sql.unquoted_literal "12    " = Some "12"
  /\ Sql.unquoted_literal "T00001" = None
  /\ Sql.unquoted_literal "" = None.
Proof. vm_compute. repeat split. Qed.

(** [main] on the sample files: four rows, the last one active. *)
Example main_on_sample_files :
  outcome (main files_repeat_on_day2 sqlite_strict) [] = Ok tt
  /\ map (fun r => (Sequence r, ProductQuantity (columns r), ACTIVE_IND r))
         (table_after (main files_repeat_on_day2 sqlite_strict) [])
     = [(1%Z, "0001", "N"); (2%Z, "0002", "N"); (3%Z, "0003", "N");
        (4%Z, "0004", "Y")].
Proof. vm_compute. split; reflexivity. Qed.

Lemma get_beyond_length (s : string) :
  forall n : nat, (String.length s <= n)%nat -> String.get n s = None.
Proof.
  induction s as [|c s IH]; intros n Hn.
  - now destruct n.
  - destruct n as [|n]; simpl in *; [lia|]. apply IH. lia.
Qed.

Lemma slice_is_slice_of (a b : nat) (line : string) :
  is_slice_of a b line (slice a b line).
Proof.
  intros n. unfold slice.
  set (len := String.length line).
  destruct (Nat.ltb_spec n (b - a)) as [Hin|Hout].
  - destruct (Nat.lt_ge_cases n (Nat.min b len - Nat.min a len)) as [Hlt|Hge].
    + rewrite (substring_correct1 line _ _ n Hlt).
      f_equal. lia.
    + rewrite (substring_correct2 line _ _ n Hge).
      symmetry. apply get_beyond_length. fold len. lia.
  - apply substring_correct2. lia.
Qed.

Lemma Usable_append (data : list string) :
  forall acc : list Transaction,
    fold_left (fun lst i => lst ++ [decode i]) data acc = acc ++ map decode data.
Proof.
  induction data as [|i data IH]; intros acc; simpl.
  - now rewrite app_nil_r.
  - rewrite IH, <- app_assoc. reflexivity.
Qed.

Lemma Usable_map (data : list string) : Usable data = map decode data.
Proof. unfold Usable. now rewrite Usable_append. Qed.

Lemma remove_found (x : string) (l : list string) :
  In x l ->
  exists before after : list string,
    l = before ++ x :: after
    /\ ~ In x before
    /\ remove x l = Ok (before ++ after).
Proof.
  induction l as [|y l IH]; intros Hin; [contradiction|].
  simpl. destruct (String.eqb_spec y x) as [->|Hne].
  - exists [], l. simpl. auto.
  - destruct Hin as [Heq|Hin]; [congruence|].
    destruct (IH Hin) as (before & after & -> & Hnot & ->).
    exists (y :: before), after. simpl. repeat split; trivial.
    intros [H|H]; [congruence|auto].
Qed.

Lemma remove_absent (x : string) (l : list string) :
  ~ In x l -> remove x l = Raise ValueError.
Proof.
  induction l as [|y l IH]; intros Hnot; simpl; [reflexivity|].
  destruct (String.eqb_spec y x) as [->|Hne].
  - exfalso. apply Hnot. now left.
  - rewrite IH; [reflexivity|]. intros H. apply Hnot. now right.
Qed.

(** ** The decoder (C5) *)

(** C5. The decoder is a function of the line alone: [Usable] applies
    [decode] to each line, in order, and every field of the dictionary is
    the run of characters of the line at the stated offsets: the characters
    themselves, neither trimmed nor converted, and none when the line is
    too short. *)
Theorem Usable_fields_are_slices :
  forall data : list string,
    Usable data = map decode data
    /\ forall line : string,
        let r := decode line in
        is_slice_of 0 6 line (Transaction_Id r)
        /\ is_slice_of 6 12 line (Customer_Id r)
        /\ is_slice_of 12 32 line (Customer_Name r)
        /\ is_slice_of 32 37 line (Customer_Addr_Id r)
        /\ is_slice_of 37 44 line (Product_Id r)
        /\ is_slice_of 44 74 line (Product_Nm r)
        /\ is_slice_of 74 80 line (ProductPrice r)
        /\ is_slice_of 80 84 line (ProductQuantity r)
        /\ is_slice_of 84 96 line (Status r)
        /\ is_slice_of 96 116 line (Transaction_time_stamp r)
        /\ is_slice_of 116 127 line (Ordered_Date r)
        /\ is_slice_of 127 138 line (Shipment_Date r)
        /\ is_slice_of 138 149 line (Delivered_Date r).
Proof.
  intros data. split; [apply Usable_map|].
  intros line r. subst r. unfold decode. cbn [Transaction_Id Customer_Id
    Customer_Name Customer_Addr_Id Product_Id Product_Nm ProductPrice
    ProductQuantity Status Transaction_time_stamp Ordered_Date Shipment_Date
    Delivered_Date].
  repeat split; apply slice_is_slice_of.
Qed.

(** ** The loader (C4) *)

(** C4, as stated, fails twice. A text without any blank line, not even a
    final newline, makes [remove] raise [ValueError]; and of the three blank
    lines of the second text only the first is removed, so that the batch
    holds two dictionaries decoded from blank lines. *)
Lemma Execute_blank_lines_counterexample :
  let one_line := "100001200001" in
  let three_blank := String "a" (String newline (String newline (String newline ""))) in
  Execute (fun _ => Ok one_line) "Day2.txt" = Raise ValueError
  /\ without_blank_lines one_line = ["100001200001"]
  /\ Execute (fun _ => Ok three_blank) "Day2.txt" = Ok ["a"; ""; ""]
  /\ without_blank_lines three_blank = ["a"]
  /\ Usable ["a"; ""; ""] = [decode "a"; decode ""; decode ""].
Proof. repeat split. Qed.

(** C4, amended. When the text has at least one empty line, the loader
    returns: it removes the first empty line and nothing else, so the lines
    before it and after it, further empty lines included, are all decoded,
    in their order. *)
Theorem Execute_removes_first_blank_line :
  forall (fs : string -> result string) (file_name text : string),
    fs file_name = Ok text ->
    In "" (split newline text) ->
    exists before after : list string,
      split newline text = before ++ "" :: after
      /\ ~ In "" before
      /\ Execute fs file_name = Ok (before ++ after)
      /\ Usable (before ++ after) = map decode before ++ map decode after.
Proof.
  intros fs file_name text Hfile Hblank.
  destruct (remove_found "" _ Hblank) as (before & after & Hsplit & Hnot & Hrem).
  exists before, after. unfold Execute. rewrite Hfile.
  repeat split; trivial.
  now rewrite Usable_map, map_app.
Qed.

Lemma Execute_removes_first_blank_line_witness :
  exists before after : list string,
    split newline (String "a" (String newline "")) = before ++ "" :: after
    /\ ~ In "" before
    /\ Execute (fun _ => Ok (String "a" (String newline ""))) "Day1.txt"
       = Ok (before ++ after)
    /\ Usable (before ++ after) = map decode before ++ map decode after.
Proof.
  apply (Execute_removes_first_blank_line
           (fun _ => Ok (String "a" (String newline ""))) "Day1.txt"
           (String "a" (String newline ""))).
  - reflexivity.
  - simpl. right. left. reflexivity.
Defined.

(** ** What every statement keeps *)

Section Preservation.

Variable R : Table -> Table -> Prop.
Hypothesis R_refl : forall t, R t t.
Hypothesis R_trans : forall t1 t2 t3, R t1 t2 -> R t2 t3 -> R t1 t3.
Hypothesis R_insert : forall d ind t, R t (Sql.insert_values d ind t).
Hypothesis R_update : forall p t, R t (Sql.update_where p t).
Variable db : Sqlite.

Lemma preserves_ret {A : Type} (a : A) : preserves R (ret a).
Proof. intros t. apply R_refl. Qed.

Lemma preserves_lift {A : Type} (r : result A) : preserves R (lift r).
Proof. intros t. apply R_refl. Qed.

Lemma preserves_bind {A B : Type} (m : M A) (k : A -> M B) :
  preserves R m -> (forall a, preserves R (k a)) -> preserves R (bind m k).
Proof.
  intros Hm Hk t. unfold table_after, bind.
  specialize (Hm t). unfold table_after in Hm.
  destruct (m t) as [[a|e] t1]; simpl in *; [|exact Hm].
  eapply R_trans; [exact Hm|]. apply Hk.
Qed.

Lemma preserves_for_each {A : Type} (xs : list A) (body : A -> M unit) :
  (forall x, preserves R (body x)) -> preserves R (for_each xs body).
Proof.
  intros Hbody. induction xs as [|x xs IH]; simpl.
  - apply preserves_ret.
  - apply preserves_bind; auto.
Qed.

Lemma preserves_insert_rows (rows : list (Transaction * string)) :
  forall t : Table, R t (Sql.insert_rows rows t).
Proof.
  unfold Sql.insert_rows.
  induction rows as [|row rows IH]; intros t; cbn [fold_left].
  - apply R_refl.
  - eapply R_trans; [apply R_insert|apply IH].
Qed.

Lemma preserves_Insert (d : Transaction) : preserves R (Insert db d).
Proof.
  intros t. unfold table_after, Insert.
  destruct (stored db d t); [apply preserves_insert_rows|apply R_refl].
Qed.

Lemma preserves_execute_update (j : Row) : preserves R (execute_update db j).
Proof.
  intros t. unfold table_after, execute_update.
  destruct (selected db _ _ _ t); [apply R_update|apply R_refl].
Qed.

Lemma preserves_match_loop (d : Transaction) (final_data : list Row) :
  preserves R (match_loop db d final_data).
Proof.
  induction final_data as [|j rest IH]; simpl.
  - apply preserves_ret.
  - destruct (same_key j d); [|exact IH].
    apply preserves_bind; [apply preserves_execute_update|intros _].
    apply preserves_bind; [apply preserves_Insert|intros _].
    apply preserves_ret.
Qed.

Lemma preserves_Main_logic (lst : list Transaction) (final_data : list Row) :
  preserves R (Main_logic db lst final_data).
Proof.
  apply preserves_for_each. intros d.
  apply preserves_bind; [apply preserves_match_loop|].
  intros [|]; [apply preserves_ret|apply preserves_Insert].
Qed.

Lemma preserves_processOnlineshopping (fs : string -> result string)
      (file_name : string) :
  preserves R (processOnlineshopping fs db file_name).
Proof.
  unfold processOnlineshopping.
  apply preserves_bind; [apply preserves_lift|intros data].
  destruct (String.eqb file_name "Day1.txt").
  - apply preserves_for_each. intros d. apply preserves_Insert.
  - apply preserves_bind; [intros t; apply R_refl|intros final_data].
    apply preserves_Main_logic.
Qed.

Lemma preserves_batch_runs (fs : string -> result string)
      (file_names : list string) :
  preserves R (batch_runs fs db file_names).
Proof.
  apply preserves_for_each. intros file_name.
  apply preserves_processOnlineshopping.
Qed.

End Preservation.

Lemma map_identity_update_where (p : Row -> bool) (t : Table) :
  map identity (Sql.update_where p t) = map identity t.
Proof.
  unfold Sql.update_where. rewrite map_map. apply map_ext.
  intros r. now destruct (p r).
Qed.

Lemma map_identity_update (a b c : string) (t : Table) :
  map identity (Sql.update_inactive a b c t) = map identity t.
Proof. apply (map_identity_update_where (Sql.where_key a b c)). Qed.

Lemma grows_refl (t : Table) : grows t t.
Proof. exists []. now rewrite app_nil_r. Qed.

Lemma grows_trans (t1 t2 t3 : Table) : grows t1 t2 -> grows t2 t3 -> grows t1 t3.
Proof.
  intros [a1 H1] [a2 H2]. exists (a1 ++ a2).
  now rewrite H2, H1, app_assoc.
Qed.

Lemma grows_insert (d : Transaction) (ind : string) (t : Table) :
  grows t (Sql.insert_values d ind t).
Proof.
  unfold Sql.insert_values. eexists. rewrite map_app. reflexivity.
Qed.

Lemma grows_update (p : Row -> bool) (t : Table) :
  grows t (Sql.update_where p t).
Proof. exists []. now rewrite map_identity_update_where, app_nil_r. Qed.

Lemma grows_length (t t' : Table) : grows t t' -> (length t <= length t')%nat.
Proof.
  intros [added H]. apply (f_equal (@length _)) in H.
  rewrite length_app, !length_map in H. lia.
Qed.

Lemma grows_keeps_rows (t t' : Table) :
  grows t t' ->
  forall (n : nat) (r : Row),
    nth_error t n = Some r ->
    exists r' : Row,
      nth_error t' n = Some r'
      /\ Sequence r' = Sequence r
      /\ columns r' = columns r.
Proof.
  intros [added H] n r Hn.
  assert (Hid : nth_error (map identity t') n = Some (identity r)).
  { rewrite H, nth_error_app1.
    - now rewrite nth_error_map, Hn.
    - rewrite length_map. apply nth_error_Some. congruence. }
  rewrite nth_error_map in Hid.
  destruct (nth_error t' n) as [r'|]; [|discriminate].
  exists r'. simpl in Hid. injection Hid as Hs Hc. auto.
Qed.

(** ** Rows are never deleted (C8) *)

(** C8. Whatever the files hold and however many days are run, and also
    when a run stops on an exception, the table afterwards has at least as
    many rows as before, and every row that was there is still there, at the
    same place, with its sequence number and its columns. *)
Theorem batch_runs_never_delete :
  forall (fs : string -> result string) (db : Sqlite)
         (file_names : list string) (t : Table),
    let t' := table_after (batch_runs fs db file_names) t in
    (length t <= length t')%nat
    /\ forall (n : nat) (r : Row),
        nth_error t n = Some r ->
        exists r' : Row,
          nth_error t' n = Some r'
          /\ Sequence r' = Sequence r
          /\ columns r' = columns r.
Proof.
  intros fs db file_names t t'.
  assert (Hg : grows t t').
  { apply (preserves_batch_runs grows grows_refl grows_trans
             grows_insert grows_update). }
  split; [now apply grows_length|now apply grows_keeps_rows].
Qed.

(** ** Sequence numbers (C7) *)

Lemma fold_max_bounds (l : list Z) :
  forall a : Z,
    (a <= fold_left Z.max l a)%Z
    /\ forall x, In x l -> (x <= fold_left Z.max l a)%Z.
Proof.
  induction l as [|y l IH]; intros a; simpl.
  - split; [lia|contradiction].
  - destruct (IH (Z.max a y)) as [Ha Hl]. split; [lia|].
    intros x [<-|Hx]; [lia|auto].
Qed.

Lemma next_rowid_fresh (t : Table) :
  forall r : Row, In r t -> (Sequence r < Sql.next_rowid t)%Z.
Proof.
  destruct t as [|r0 t]; intros r Hr; [contradiction|].
  unfold Sql.next_rowid.
  destruct (fold_max_bounds (map Sequence t) (Sequence r0)) as [H0 Hl].
  destruct Hr as [<-|Hr]; [lia|].
  specialize (Hl (Sequence r) (in_map Sequence _ _ Hr)). lia.
Qed.

Lemma sorted_app (l1 l2 : list Z) :
  StronglySorted Z.lt l1 ->
  StronglySorted Z.lt l2 ->
  (forall x y, In x l1 -> In y l2 -> (x < y)%Z) ->
  StronglySorted Z.lt (l1 ++ l2).
Proof.
  induction l1 as [|a l1 IH]; intros H1 H2 Hlt; simpl; [exact H2|].
  inversion H1 as [|? ? Hs Hall]; subst. constructor.
  - apply IH; trivial. intros x y Hx Hy. apply Hlt; [now right|trivial].
  - apply Forall_app. split; [exact Hall|].
    apply Forall_forall. intros y Hy. apply Hlt; [now left|trivial].
Qed.

Lemma sorted_app_inv (l1 l2 : list Z) :
  StronglySorted Z.lt (l1 ++ l2) ->
  forall x y, In x l1 -> In y l2 -> (x < y)%Z.
Proof.
  induction l1 as [|a l1 IH]; intros Hs x y Hx Hy; [contradiction|].
  simpl in Hs. inversion Hs as [|? ? Hs' Hall]; subst.
  destruct Hx as [<-|Hx].
  - rewrite Forall_forall in Hall. apply Hall, in_or_app. now right.
  - now apply IH.
Qed.

Lemma sorted_NoDup (l : list Z) : StronglySorted Z.lt l -> NoDup l.
Proof.
  induction 1 as [|a l Hs IH Hall]; constructor; trivial.
  intros Hin. rewrite Forall_forall in Hall. specialize (Hall a Hin). lia.
Qed.

Lemma ascending_insert (d : Transaction) (ind : string) (t : Table) :
  ascending t -> ascending (Sql.insert_values d ind t).
Proof.
  unfold ascending, Sql.insert_values. intros Ht.
  rewrite map_app. apply sorted_app; trivial.
  - simpl. repeat constructor.
  - intros x y Hx [<-|[]]. simpl.
    apply in_map_iff in Hx. destruct Hx as (r & <- & Hr).
    now apply next_rowid_fresh.
Qed.

Lemma map_Sequence_update_where (p : Row -> bool) (t : Table) :
  map Sequence (Sql.update_where p t) = map Sequence t.
Proof.
  unfold Sql.update_where. rewrite map_map. apply map_ext.
  intros r. now destruct (p r).
Qed.

Lemma ascending_update (p : Row -> bool) (t : Table) :
  ascending t -> ascending (Sql.update_where p t).
Proof. unfold ascending. now rewrite map_Sequence_update_where. Qed.

Lemma grows_Sequence (t t' : Table) :
  grows t t' ->
  exists new : list Z, map Sequence t' = map Sequence t ++ new.
Proof.
  intros [added H]. exists (map fst added).
  apply (f_equal (map fst)) in H.
  now rewrite map_app, !map_map in H.
Qed.

Lemma batch_runs_ascending (fs : string -> result string) (db : Sqlite)
      (file_names : list string) (t : Table) :
  ascending t -> ascending (table_after (batch_runs fs db file_names) t).
Proof.
  apply (preserves_batch_runs (fun t t' => ascending t -> ascending t')).
  - auto.
  - auto.
  - intros d ind t0. apply ascending_insert.
  - intros p t0. apply ascending_update.
Qed.

Lemma table_after_create {A : Type} (m : M A) (t0 : Table) :
  table_after (create_table ;; m) t0 = table_after m [].
Proof. reflexivity. Qed.

(** C7. From the creation of the table on, through any days [earlier] and
    then any days [later], whatever the files hold and whatever SQLite makes
    of the statements: the numbers go up along the table, which is the order
    of insertion, no number occurs twice, the numbers given earlier are all
    still there, and each number given later is above every one of them. The
    insertion of a record of plain text appends one row, whose number is
    above every number in the table; whatever an insertion does, the rows
    of the table stay and what it adds comes after them. *)
Theorem sequence_numbers_increase :
  forall (fs : string -> result string) (db : Sqlite)
         (earlier later : list string) (t0 : Table),
    let t1 := table_after (create_table ;; batch_runs fs db earlier) t0 in
    let t2 := table_after (batch_runs fs db later) t1 in
    ascending t2
    /\ NoDup (map Sequence t2)
    /\ (exists new : list Z,
          map Sequence t2 = map Sequence t1 ++ new
          /\ forall old s, In old (map Sequence t1) -> In s new -> (old < s)%Z)
    /\ forall (d : Transaction) (t : Table),
        grows t (table_after (Insert db d) t)
        /\ (plain_record d = true ->
            table_after (Insert db d) t = t ++ [mkRow (Sql.next_rowid t) d "Y"])
        /\ forall r, In r t -> (Sequence r < Sql.next_rowid t)%Z.
Proof.
  intros fs db earlier later t0 t1 t2.
  assert (H1 : ascending t1).
  { subst t1. rewrite table_after_create.
    apply batch_runs_ascending. constructor. }
  assert (H2 : ascending t2) by now apply batch_runs_ascending.
  assert (Hg : grows t1 t2).
  { apply (preserves_batch_runs grows grows_refl grows_trans
             grows_insert grows_update). }
  split; [exact H2|]. split; [now apply sorted_NoDup|]. split.
  - destruct (grows_Sequence _ _ Hg) as [new Hnew]. exists new.
    split; [exact Hnew|]. unfold ascending in H2. rewrite Hnew in H2.
    intros old s. now apply sorted_app_inv.
  - intros d t. split; [|split; [|apply next_rowid_fresh]].
    + apply (preserves_Insert grows grows_refl grows_trans grows_insert).
    + intros Hplain. unfold table_after, Insert, stored. now rewrite Hplain.
Qed.

Lemma sequence_numbers_increase_witness :
  let d := decode (sample_line "0002") in
  let t := [mkRow 1 (decode (sample_line "0001")) "Y"] in
  table_after (Insert sqlite_strict d) t = t ++ [mkRow (Sql.next_rowid t) d "Y"].
Proof.
  intros d t.
  destruct (sequence_numbers_increase files_repeat_on_day2 sqlite_strict
              ["Day1.txt"] ["Day2.txt"] []) as (_ & _ & _ & Hins).
  apply (proj1 (proj2 (Hins d t))).
  vm_compute. reflexivity.
Defined.

(** ** The matching loop *)

Lemma key_eqb_eq (k1 k2 : string * string * string) :
  key_eqb k1 k2 = true <-> k1 = k2.
Proof.
  destruct k1 as [[a1 b1] c1], k2 as [[a2 b2] c2]. simpl.
  rewrite !andb_true_iff, !String.eqb_eq. split.
  - intros [[-> ->] ->]. reflexivity.
  - intros H. injection H as -> -> ->. auto.
Qed.

Lemma key_eqb_refl (k : string * string * string) : key_eqb k k = true.
Proof. now apply key_eqb_eq. Qed.

Lemma same_key_eq (j : Row) (d : Transaction) :
  same_key j d = true <-> row_key j = key_of d.
Proof. apply (key_eqb_eq (row_key j) (key_of d)). Qed.

Lemma where_key_eqb (a b c : string) (r : Row) :
  Sql.where_key a b c r = key_eqb (row_key r) (a, b, c).
Proof. reflexivity. Qed.

Lemma execute_update_literal (db : Sqlite) (j : Row) (t : Table)
      (a b c : string) :
  literal_key (row_key j) = Some (a, b, c) ->
  execute_update db j t = (Ok tt, Sql.update_inactive a b c t).
Proof.
  unfold execute_update, selected, literal_key, row_key, key_of.
  destruct (Sql.unquoted_literal (Transaction_Id (columns j))),
           (Sql.unquoted_literal (Customer_Id (columns j))),
           (Sql.unquoted_literal (Product_Id (columns j)));
    try discriminate.
  intros H. injection H as <- <- <-. reflexivity.
Qed.

Lemma canonical_literal_key (k : string * string * string) :
  canonical_key k -> literal_key k = Some k.
Proof.
  destruct k as [[a b] c]. simpl. intros (-> & -> & ->). reflexivity.
Qed.

Lemma Insert_plain (db : Sqlite) (d : Transaction) (t : Table) :
  plain_record d = true ->
  Insert db d t = (Ok tt, Sql.insert_values d "Y" t).
Proof. intros Hplain. unfold Insert, stored. now rewrite Hplain. Qed.

Lemma for_each_ext {A : Type} (f g : A -> M unit) (xs : list A) :
  (forall x t, f x t = g x t) ->
  forall t, for_each xs f t = for_each xs g t.
Proof.
  intros Hfg. induction xs as [|x xs IH]; intros t; [reflexivity|].
  cbn [for_each]. unfold bind. rewrite Hfg.
  destruct (g x t) as [[[]|e] t1]; [apply IH|reflexivity].
Qed.

Lemma bind_ext {A B : Type} (m1 m2 : M A) (k1 k2 : A -> M B) (t : Table) :
  m1 t = m2 t ->
  (forall a u, k1 a u = k2 a u) ->
  bind m1 k1 t = bind m2 k2 t.
Proof.
  intros Hm Hk. unfold bind. rewrite Hm.
  destruct (m2 t) as [[a|e] u]; [apply Hk|reflexivity].
Qed.

(** The inner loop stops at the first row of the snapshot with the ids of
    the record, and looks at nothing else of that row. *)
Lemma match_loop_find (db : Sqlite) (d : Transaction) (final_data : list Row)
      (t : Table) :
  match_loop db d final_data t =
  match find (fun j => same_key j d) final_data with
  | Some j => (execute_update db j ;; Insert db d ;; ret true) t
  | None => (Ok false, t)
  end.
Proof.
  induction final_data as [|j rest IH]; simpl; [reflexivity|].
  destruct (same_key j d); [reflexivity|exact IH].
Qed.

Lemma turn_reconcile (db : Sqlite) (final_data : list Row) (d : Transaction)
      (t : Table) :
  turn db final_data d t = reconcile db final_data d t.
Proof.
  unfold turn, reconcile, bind at 1. rewrite match_loop_find.
  destruct (find (fun j => same_key j d) final_data) as [j|]; [|reflexivity].
  unfold bind. destruct (execute_update db j t) as [[[]|e] t1]; [|reflexivity].
  destruct (Insert db d t1) as [[[]|e] t2]; reflexivity.
Qed.

Lemma turn_no_match (db : Sqlite) (final_data : list Row) (d : Transaction)
      (t : Table) :
  find (fun j => same_key j d) final_data = None ->
  turn db final_data d t = Insert db d t.
Proof.
  intros Hfind. rewrite turn_reconcile. unfold reconcile. now rewrite Hfind.
Qed.

Lemma turn_match (db : Sqlite) (final_data : list Row) (d : Transaction)
      (t : Table) (j : Row) (a b c : string) :
  find (fun j => same_key j d) final_data = Some j ->
  literal_key (row_key j) = Some (a, b, c) ->
  turn db final_data d t = Insert db d (Sql.update_inactive a b c t).
Proof.
  intros Hfind Hlit. rewrite turn_reconcile. unfold reconcile.
  rewrite Hfind. unfold bind.
  now rewrite (execute_update_literal db j t a b c Hlit).
Qed.

Lemma Main_logic_cons (db : Sqlite) (d : Transaction) (lst : list Transaction)
      (final_data : list Row) :
  Main_logic db (d :: lst) final_data =
  (turn db final_data d ;; Main_logic db lst final_data).
Proof. reflexivity. Qed.

Lemma Main_logic_reconcile (db : Sqlite) (lst : list Transaction)
      (final_data : list Row) (t : Table) :
  Main_logic db lst final_data t = for_each lst (reconcile db final_data) t.
Proof.
  unfold Main_logic. apply for_each_ext. intros d u.
  apply (turn_reconcile db final_data d u).
Qed.

Lemma find_same_key (d : Transaction) (final_data : list Row) :
  (exists j, In j final_data /\ row_key j = key_of d) ->
  exists j, find (fun j => same_key j d) final_data = Some j
            /\ row_key j = key_of d.
Proof.
  intros (j & Hin & Hkey).
  destruct (find (fun j => same_key j d) final_data) as [j'|] eqn:Hfind.
  - exists j'. split; [reflexivity|].
    apply find_some in Hfind. now apply same_key_eq.
  - apply (find_none _ _ Hfind) in Hin.
    apply same_key_eq in Hkey. congruence.
Qed.

Lemma find_first (d : Transaction) (final_data : list Row) :
  match find (fun j => same_key j d) final_data with
  | Some j =>
      exists before after : list Row,
        final_data = before ++ j :: after
        /\ row_key j = key_of d
        /\ forall r, In r before -> row_key r <> key_of d
  | None => forall r, In r final_data -> row_key r <> key_of d
  end.
Proof.
  induction final_data as [|j rest IH]; cbn [find]; [intros r []|].
  destruct (same_key j d) eqn:Hj.
  - exists [], rest. split; [reflexivity|].
    split; [now apply same_key_eq|intros r []].
  - assert (Hne : row_key j <> key_of d).
    { intros H. apply same_key_eq in H. congruence. }
    destruct (find (fun j => same_key j d) rest) as [j'|].
    + destruct IH as (before & after & -> & Hkey & Hbefore).
      exists (j :: before), after. split; [reflexivity|].
      split; [exact Hkey|]. intros r [<-|Hr]; auto.
    + intros r [<-|Hr]; auto.
Qed.

(** ** What the snapshot holds (C2) *)

(** C2, as stated, fails. After day 1 and day 2 of the sample files the
    snapshot that a third day would match against holds rows whose
    indicator is 'N'; and against a table whose only row for the key is
    retired the loop still declares a match, although no active row has
    the key. *)
Lemma snapshot_holds_retired_rows :
  let t := table_after
             (create_table ;;
              batch_runs files_repeat_on_day2 sqlite_strict ["Day1.txt"; "Day2.txt"])
             [] in
  (exists snapshot : list Row,
     Final_data t = (Ok snapshot, t)
     /\ map ACTIVE_IND snapshot = ["N"; "N"; "Y"])
  /\ let d := decode (sample_line "0004") in
     let retired := [mkRow 1 (decode (sample_line "0001")) "N"] in
     active_count (key_of d) retired = 0%nat
     /\ outcome (match_loop sqlite_strict d retired) retired = Ok true.
Proof.
  split.
  - eexists. split; [reflexivity|]. vm_compute. reflexivity.
  - split; vm_compute; reflexivity.
Qed.

(** C2, amended. A batch read from a file with any name but 'Day1.txt' is
    processed record by record against one snapshot, the whole table as it
    is when the batch starts, retired rows included: each record is handled
    as [reconcile] says with that same table, whatever the records before it
    have changed. The row that a record is matched with is the first row of
    that table, in its order, with the three ids of the record, whatever
    its indicator; there is a match exactly when there is such a row. *)
Theorem match_is_against_every_row :
  forall (fs : string -> result string) (db : Sqlite) (file_name : string)
         (t : Table),
    String.eqb file_name "Day1.txt" = false ->
    processOnlineshopping fs db file_name t
    = (data <- lift (Execute fs file_name) ;;
       for_each (Usable data) (reconcile db t)) t
    /\ forall dctnry : Transaction,
        match find (fun j => same_key j dctnry) t with
        | Some j =>
            exists before after : list Row,
              t = before ++ j :: after
              /\ row_key j = key_of dctnry
              /\ forall r, In r before -> row_key r <> key_of dctnry
        | None => forall r, In r t -> row_key r <> key_of dctnry
        end.
Proof.
  intros fs db file_name t Hname. split; [|intros d; apply find_first].
  unfold processOnlineshopping. rewrite Hname.
  unfold bind at 1 3, lift.
  destruct (Execute fs file_name) as [data|e]; [|reflexivity].
  unfold bind, Final_data. apply Main_logic_reconcile.
Qed.

Lemma match_is_against_every_row_witness :
  let t := [mkRow 1 (decode (sample_line "0001")) "N";
            mkRow 2 (decode (sample_line "0002")) "Y"] in
  processOnlineshopping files_repeat_on_day2 sqlite_strict "Day3.txt" t
  = (data <- lift (Execute files_repeat_on_day2 "Day3.txt") ;;
     for_each (Usable data) (reconcile sqlite_strict t)) t
  /\ forall dctnry : Transaction,
      match find (fun j => same_key j dctnry) t with
      | Some j =>
          exists before after : list Row,
            t = before ++ j :: after
            /\ row_key j = key_of dctnry
            /\ forall r, In r before -> row_key r <> key_of dctnry
      | None => forall r, In r t -> row_key r <> key_of dctnry
      end.
Proof.
  intros t.
  apply (match_is_against_every_row files_repeat_on_day2 sqlite_strict "Day3.txt" t).
  reflexivity.
Defined.

(** ** The retirement (C3) *)

Lemma nth_error_update_where (p : Row -> bool) (t : Table) (n : nat) (r : Row) :
  nth_error t n = Some r ->
  nth_error (Sql.update_where p t) n =
  Some (if p r then Sql.set_inactive r else r).
Proof.
  intros Hn. unfold Sql.update_where.
  rewrite nth_error_map, Hn. reflexivity.
Qed.

Lemma nth_error_update (a b c : string) (t : Table) (n : nat) (r : Row) :
  nth_error t n = Some r ->
  nth_error (Sql.update_inactive a b c t) n =
  Some (if key_eqb (row_key r) (a, b, c) then Sql.set_inactive r else r).
Proof. apply (nth_error_update_where (Sql.where_key a b c)). Qed.

(** C3, as stated, fails. Day 1 of these files inserts two active rows with
    one key. On day 2 the record matches the first of them, number 1, and
    the retirement that follows also turns off number 2: the UPDATE selects
    by the three ids, not by the number. *)
Lemma retirement_reaches_other_rows :
  let t := table_after
             (create_table ;;
              batch_runs files_repeat_on_day1 sqlite_strict ["Day1.txt"])
             [] in
  map (fun r => (Sequence r, ACTIVE_IND r)) t = [(1%Z, "Y"); (2%Z, "Y")]
  /\ exists j : Row,
       find (fun j => same_key j (decode (sample_line "0003"))) t = Some j
       /\ Sequence j = 1%Z
       /\ map (fun r => (Sequence r, ACTIVE_IND r))
              (table_after (execute_update sqlite_strict j) t)
          = [(1%Z, "N"); (2%Z, "N")].
Proof.
  split; [vm_compute; reflexivity|].
  eexists. split; [vm_compute; reflexivity|].
  split; vm_compute; reflexivity.
Qed.

(** C3, amended. When the three ids of the matched row [j] are plain
    integers, the retirement that follows the match sets the indicator to
    'N' on every row that has those three ids, [j] itself or not, already
    retired or not; a row with other ids keeps its indicator, and every row
    keeps its place, its sequence number and its thirteen columns. *)
Theorem retirement_is_by_key :
  forall (db : Sqlite) (j : Row) (t : Table),
    canonical_key (row_key j) ->
    exists t' : Table,
      execute_update db j t = (Ok tt, t')
      /\ length t' = length t
      /\ forall (n : nat) (r : Row),
          nth_error t n = Some r ->
          exists r' : Row,
            nth_error t' n = Some r'
            /\ Sequence r' = Sequence r
            /\ columns r' = columns r
            /\ ACTIVE_IND r' =
               if key_eqb (row_key r) (row_key j) then "N" else ACTIVE_IND r.
Proof.
  intros db j t Hcan.
  pose proof (canonical_literal_key _ Hcan) as Hlit.
  destruct (row_key j) as [[a b] c] eqn:Hj.
  exists (Sql.update_inactive a b c t).
  rewrite (execute_update_literal db j t a b c) by now rewrite Hj.
  split; [reflexivity|].
  split; [apply length_map|].
  intros n r Hn. eexists. split; [apply nth_error_update; exact Hn|].
  destruct (key_eqb (row_key r) (a, b, c)); auto.
Qed.

Lemma retirement_is_by_key_witness :
  let j := mkRow 1 (decode (sample_line "0001")) "Y" in
  let t := [j; mkRow 2 (decode (sample_line "0002")) "Y"] in
  exists t' : Table,
    execute_update sqlite_strict j t = (Ok tt, t')
    /\ length t' = length t
    /\ forall (n : nat) (r : Row),
        nth_error t n = Some r ->
        exists r' : Row,
          nth_error t' n = Some r'
          /\ Sequence r' = Sequence r
          /\ columns r' = columns r
          /\ ACTIVE_IND r' =
             if key_eqb (row_key r) (row_key j) then "N" else ACTIVE_IND r.
Proof.
  intros j t.
  apply (retirement_is_by_key sqlite_strict j t).
  vm_compute. repeat split.
Defined.

(** ** Two records with one key in a batch (C1) *)

Lemma update_inactive_idem (a b c : string) (t : Table) :
  Sql.update_inactive a b c (Sql.update_inactive a b c t)
  = Sql.update_inactive a b c t.
Proof.
  unfold Sql.update_inactive. rewrite map_map. apply map_ext. intros r.
  destruct (Sql.where_key a b c r) eqn:Hw; [|now rewrite Hw].
  unfold Sql.where_key in *. simpl. now rewrite Hw.
Qed.

Lemma update_inactive_app (a b c : string) (t1 t2 : Table) :
  Sql.update_inactive a b c (t1 ++ t2)
  = Sql.update_inactive a b c t1 ++ Sql.update_inactive a b c t2.
Proof. apply map_app. Qed.

Lemma active_count_app (k : string * string * string) (t1 t2 : Table) :
  active_count k (t1 ++ t2) = (active_count k t1 + active_count k t2)%nat.
Proof.
  unfold active_count, rows_of_key. now rewrite !filter_app, length_app.
Qed.

Lemma active_count_update (a b c : string) (t : Table) :
  active_count (a, b, c) (Sql.update_inactive a b c t) = 0%nat.
Proof.
  unfold active_count, rows_of_key, Sql.update_inactive.
  induction t as [|r t IH]; cbn [map filter]; [reflexivity|].
  rewrite where_key_eqb.
  destruct (key_eqb (row_key r) (a, b, c)) eqn:Hk.
  - change (row_key (Sql.set_inactive r)) with (row_key r). rewrite Hk.
    cbn [filter].
    change (is_active (Sql.set_inactive r)) with false. exact IH.
  - rewrite Hk. exact IH.
Qed.

Lemma active_count_has_row (k : string * string * string) (t : Table) :
  active_count k t <> 0%nat -> exists j, In j t /\ row_key j = k.
Proof.
  unfold active_count, rows_of_key. intros Hn.
  destruct (filter is_active (filter (fun r => key_eqb (row_key r) k) t))
    as [|j rest] eqn:Hf; [contradiction|].
  assert (Hin : In j (filter is_active (filter (fun r => key_eqb (row_key r) k) t))).
  { rewrite Hf. now left. }
  apply filter_In in Hin. destruct Hin as [Hin _].
  apply filter_In in Hin. destruct Hin as [Hin Hk].
  exists j. split; [exact Hin|now apply key_eqb_eq].
Qed.

(** C1, as stated, fails. Day 1 of the sample files leaves one active row
    for the key, and day 2 holds the key twice. After day 2 the table has
    three rows for the key, of which only the last is active: the retirement
    issued for the second record also turns off the row inserted for the
    first. *)
Lemma repeated_key_counterexample :
  let t1 := table_after
              (create_table ;;
               batch_runs files_repeat_on_day2 sqlite_strict ["Day1.txt"])
              [] in
  let t2 := table_after
              (processOnlineshopping files_repeat_on_day2 sqlite_strict "Day2.txt")
              t1 in
  map (fun r => (Sequence r, row_key r, ACTIVE_IND r)) t1
  = [(1%Z, sample_key, "Y")]
  /\ outcome (processOnlineshopping files_repeat_on_day2 sqlite_strict "Day2.txt") t1
     = Ok tt
  /\ map (fun r => (Sequence r, row_key r, ACTIVE_IND r)) t2
     = [(1%Z, sample_key, "N"); (2%Z, sample_key, "N"); (3%Z, sample_key, "Y")]
  /\ active_count sample_key t2 = 1%nat
  /\ active_count sample_key t2 <> 2%nat.
Proof. vm_compute. repeat split. discriminate. Qed.

(** C1, amended. A batch of two records with one key, a key of plain
    integers, and with plain texts in their fields, is matched against a
    table with exactly one active row for that key. The batch runs to its
    end; after it every row that was in the table under that key is
    retired, two rows were added for the key, one per record and in their
    order, and only the second is active: one active row for the key, not
    two. *)
Theorem repeated_key_leaves_one_active :
  forall (db : Sqlite) (t : Table) (r1 r2 : Transaction)
         (k : string * string * string),
    key_of r1 = k ->
    key_of r2 = k ->
    canonical_key k ->
    plain_record r1 = true ->
    plain_record r2 = true ->
    active_count k t = 1%nat ->
    exists (old : Table) (s1 s2 : Z),
      (final_data <- Final_data ;; Main_logic db [r1; r2] final_data) t
      = (Ok tt, old ++ [mkRow s1 r1 "N"; mkRow s2 r2 "Y"])
      /\ map identity old = map identity t
      /\ (forall r, In r old -> row_key r = k -> ACTIVE_IND r = "N")
      /\ (forall r, In r old -> (Sequence r < s1)%Z)
      /\ (s1 < s2)%Z
      /\ active_count k (old ++ [mkRow s1 r1 "N"; mkRow s2 r2 "Y"]) = 1%nat.
Proof.
  intros db t r1 r2 [[a b] c] Hk1 Hk2 Hcan Hp1 Hp2 Hone.
  assert (Hrow : exists j, In j t /\ row_key j = (a, b, c)).
  { apply active_count_has_row. lia. }
  destruct (find_same_key r1 t) as (j1 & Hf1 & Hj1); [now rewrite Hk1|].
  destruct (find_same_key r2 t) as (j2 & Hf2 & Hj2); [now rewrite Hk2|].
  pose proof (canonical_literal_key _ Hcan) as Hlit.
  set (old := Sql.update_inactive a b c t).
  set (s1 := Sql.next_rowid old).
  set (s2 := Sql.next_rowid (old ++ [mkRow s1 r1 "N"])).
  exists old, s1, s2.
  assert (Hw1 : Sql.where_key a b c (mkRow s1 r1 "Y") = true).
  { rewrite where_key_eqb. apply key_eqb_eq. exact Hk1. }
  split.
  - unfold bind at 1, Final_data. rewrite Main_logic_cons. unfold bind at 1.
    rewrite (turn_match db t r1 t j1 a b c Hf1); [|now rewrite Hj1, Hk1].
    rewrite (Insert_plain db r1 _ Hp1).
    rewrite Main_logic_cons. unfold bind at 1.
    rewrite (turn_match db t r2 _ j2 a b c Hf2); [|now rewrite Hj2, Hk2].
    rewrite (Insert_plain db r2 _ Hp2).
    simpl. f_equal. unfold Sql.insert_values at 2. fold old. fold s1.
    rewrite update_inactive_app. unfold old at 1.
    rewrite update_inactive_idem. fold old.
    unfold Sql.update_inactive at 1. simpl map. rewrite Hw1.
    unfold Sql.set_inactive. simpl.
    unfold Sql.insert_values. fold s2. now rewrite <- app_assoc.
  - split; [apply map_identity_update|]. split.
    + intros r Hin Hkey. unfold old, Sql.update_inactive in Hin.
      apply in_map_iff in Hin. destruct Hin as (r0 & <- & _).
      rewrite where_key_eqb in *.
      destruct (key_eqb (row_key r0) (a, b, c)) eqn:Hk0; [reflexivity|].
      apply key_eqb_eq in Hkey. congruence.
    + split; [intros r Hin; now apply next_rowid_fresh|]. split.
      * subst s2. apply (next_rowid_fresh _ (mkRow s1 r1 "N")).
        apply in_or_app. right. now left.
      * rewrite active_count_app. unfold old.
        rewrite active_count_update. unfold active_count, rows_of_key.
        cbn [filter].
        change (row_key (mkRow s1 r1 "N")) with (key_of r1).
        change (row_key (mkRow s2 r2 "Y")) with (key_of r2).
        rewrite Hk1, Hk2, key_eqb_refl. reflexivity.
Qed.

Lemma repeated_key_leaves_one_active_witness :
  exists (old : Table) (s1 s2 : Z),
    (final_data <- Final_data ;;
     Main_logic sqlite_strict
                [decode (sample_line "0002"); decode (sample_line "0003")]
                final_data)
      [mkRow 1 (decode (sample_line "0001")) "Y"]
    = (Ok tt, old ++ [mkRow s1 (decode (sample_line "0002")) "N";
                      mkRow s2 (decode (sample_line "0003")) "Y"])
    /\ map identity old = map identity [mkRow 1 (decode (sample_line "0001")) "Y"]
    /\ (forall r, In r old -> row_key r = sample_key -> ACTIVE_IND r = "N")
    /\ (forall r, In r old -> (Sequence r < s1)%Z)
    /\ (s1 < s2)%Z
    /\ active_count sample_key
         (old ++ [mkRow s1 (decode (sample_line "0002")) "N";
                  mkRow s2 (decode (sample_line "0003")) "Y"]) = 1%nat.
Proof.
  apply (repeated_key_leaves_one_active sqlite_strict
           [mkRow 1 (decode (sample_line "0001")) "Y"]
           (decode (sample_line "0002")) (decode (sample_line "0003"))
           sample_key).
  - vm_compute. reflexivity.
  - vm_compute. reflexivity.
  - vm_compute. repeat split.
  - vm_compute. reflexivity.
  - vm_compute. reflexivity.
  - vm_compute. reflexivity.
Defined.

(** ** The baseline path (C6, C10) *)

Lemma next_rowid_insert (d : Transaction) (ind : string) (t : Table) :
  Sql.next_rowid (Sql.insert_values d ind t) = (Sql.next_rowid t + 1)%Z.
Proof.
  unfold Sql.insert_values. destruct t as [|r t]; [reflexivity|].
  cbn [app Sql.next_rowid]. rewrite map_app, fold_left_app. simpl. lia.
Qed.

Lemma for_each_Insert (db : Sqlite) (lst : list Transaction) :
  forallb plain_record lst = true ->
  forall t : Table,
    for_each lst (Insert db) t
    = (Ok tt, t ++ baseline_rows (Sql.next_rowid t) lst).
Proof.
  induction lst as [|d lst IH]; intros Hplain t; simpl.
  - now rewrite app_nil_r.
  - cbn [forallb] in Hplain. apply andb_true_iff in Hplain.
    destruct Hplain as [Hd Hlst].
    unfold bind. rewrite (Insert_plain db d t Hd).
    rewrite (IH Hlst), next_rowid_insert.
    unfold Sql.insert_values. now rewrite <- app_assoc.
Qed.

Lemma Main_logic_empty_snapshot (db : Sqlite) (lst : list Transaction) :
  forall t : Table, Main_logic db lst [] t = for_each lst (Insert db) t.
Proof.
  intros t. rewrite Main_logic_reconcile. now apply for_each_ext.
Qed.

(** C6. On an empty table the two branches of [processOnlineshopping] are
    the same function of the batch: matching against the snapshot of the
    empty table, which is empty, sends the same insertions as the baseline
    branch does. So a file read under another name leaves the table that it
    leaves as 'Day1.txt'. For records of plain text that table holds one
    active row per record, numbered from 1. *)
Theorem baseline_is_matching_on_empty_table :
  forall (db : Sqlite) (lst : list Transaction) (text file_name : string),
    (final_data <- Final_data ;; Main_logic db lst final_data) []
    = for_each lst (Insert db) []
    /\ (forallb plain_record lst = true ->
        for_each lst (Insert db) [] = (Ok tt, baseline_rows 1 lst))
    /\ processOnlineshopping (fun _ => Ok text) db file_name []
       = processOnlineshopping (fun _ => Ok text) db "Day1.txt" [].
Proof.
  intros db lst text file_name. split; [|split].
  - unfold bind, Final_data. apply Main_logic_empty_snapshot.
  - intros Hplain. now apply for_each_Insert.
  - unfold processOnlineshopping, bind, lift, Execute, Final_data.
    destruct (remove "" (split newline text)) as [data|e]; [|reflexivity].
    destruct (String.eqb file_name "Day1.txt"); [reflexivity|].
    apply Main_logic_empty_snapshot.
Qed.

Lemma baseline_is_matching_on_empty_table_witness :
  let lst := [decode (sample_line "0001"); decode (other_line "0002")] in
  for_each lst (Insert sqlite_strict) [] = (Ok tt, baseline_rows 1 lst).
Proof.
  intros lst.
  apply (proj1 (proj2 (baseline_is_matching_on_empty_table
                         sqlite_strict lst "" "Day2.txt"))).
  vm_compute. reflexivity.
Defined.



Lemma active_count_insert (k : string * string * string) (d : Transaction)
      (t : Table) :
  active_count k (Sql.insert_values d "Y" t)
  = (active_count k t + if key_eqb (key_of d) k then 1 else 0)%nat.
Proof.
  unfold Sql.insert_values. rewrite active_count_app. f_equal.
  unfold active_count, rows_of_key. cbn [filter].
  change (row_key (mkRow (Sql.next_rowid t) d "Y")) with (key_of d).
  now destruct (key_eqb (key_of d) k).
Qed.



(** The same extract, applied to the same non-empty table under the two
    names: as 'Day1.txt' no row is retired, as 'Day2.txt' the old row is. *)
Example file_name_decides_on_nonempty_table :
  let day2 := (sample_line "0002" ++ nl)%string in
  let t := [mkRow 1 (decode (sample_line "0001")) "Y"] in
  map ACTIVE_IND
      (table_after (processOnlineshopping (fun _ => Ok day2) sqlite_strict "Day1.txt") t)
  = ["Y"; "Y"]
  /\ map ACTIVE_IND
         (table_after (processOnlineshopping (fun _ => Ok day2) sqlite_strict "Day2.txt") t)
     = ["N"; "Y"].
Proof. vm_compute. split; reflexivity. Qed.

(** ** The same batch again (C9) *)

(** C9. Where the ids are words the program does not do what the claim
    says. Day 1 of these files inserts a row whose ids are words; day 2 is
    the same batch, its record matches that row, and the UPDATE, in which
    the ids stand without quotes, is refused by SQLite (no such column):
    the run raises and the table has the one row it had. The INSERT of the
    same ids, where [str] of the tuple puts them between quotes, is
    accepted. *)
Lemma reapplied_words_refused :
  let t1 := table_after
              (create_table ;; batch_runs files_words sqlite_strict ["Day1.txt"])
              [] in
  let lst := [decode sample_line_words] in
  Execute files_words "Day2.txt" = Ok [sample_line_words]
  /\ Usable [sample_line_words] = lst
  /\ lst <> []
  /\ (forall d, In d lst -> exists j, In j t1 /\ row_key j = key_of d)
  /\ processOnlineshopping files_words sqlite_strict "Day2.txt" t1
     = (Raise OperationalError, t1)
  /\ length t1 = 1%nat.
Proof.
  repeat split; try (vm_compute; reflexivity); try discriminate.
  intros d [<-|[]]. eexists. split; [left; reflexivity|vm_compute; reflexivity].
Qed.

(** * Further properties of the program *)

(** ** Reading a file *)

Lemma split_nonempty (sep : ascii) (s : string) : split sep s <> [].
Proof.
  destruct s as [|c s]; simpl; [discriminate|].
  destruct (Ascii.eqb c sep); [discriminate|].
  destruct (split sep s); discriminate.
Qed.

Lemma length_split (sep : ascii) (s : string) :
  length (split sep s) = S (count_char sep s).
Proof.
  induction s as [|c s IH]; [reflexivity|]. simpl.
  destruct (Ascii.eqb c sep); simpl; [now rewrite IH|].
  destruct (split sep s) as [|piece pieces] eqn:Hs; [|exact IH].
  now apply split_nonempty in Hs.
Qed.

Lemma remove_length (x : string) (l : list string) :
  forall r, remove x l = Ok r -> length l = S (length r).
Proof.
  induction l as [|y l IH]; intros r Hr; simpl in Hr; [discriminate|].
  destruct (String.eqb y x).
  - injection Hr as <-. reflexivity.
  - destruct (remove x l) as [r'|e]; [|discriminate].
    injection Hr as <-. simpl. now rewrite (IH r').
Qed.

Lemma split_app_sep (sep : ascii) (s1 s2 : string) :
  split sep (s1 ++ String sep s2)%string = split sep s1 ++ split sep s2.
Proof.
  induction s1 as [|c s1 IH]; simpl.
  - now rewrite Ascii.eqb_refl.
  - destruct (Ascii.eqb c sep); [now rewrite IH|].
    rewrite IH. destruct (split sep s1) as [|piece pieces] eqn:Hs.
    + now apply split_nonempty in Hs.
    + reflexivity.
Qed.

Lemma split_free (sep : ascii) (s : string) :
  free_of sep s = true -> split sep s = [s].
Proof.
  induction s as [|c s IH]; simpl; [reflexivity|].
  destruct (Ascii.eqb c sep); simpl; [discriminate|].
  intros Hfree. now rewrite (IH Hfree).
Qed.

Lemma split_join_lines (lines : list string) :
  Forall (fun l => free_of newline l = true) lines ->
  split newline (join_lines lines) = lines ++ [""].
Proof.
  induction 1 as [|l lines Hl _ IH]; [reflexivity|].
  simpl join_lines. now rewrite split_app_sep, IH, (split_free _ _ Hl).
Qed.

Lemma remove_last (x : string) (l : list string) :
  ~ In x l -> remove x (l ++ [x]) = Ok l.
Proof.
  induction l as [|y l IH]; intros Hnot; simpl.
  - now rewrite String.eqb_refl.
  - destruct (String.eqb_spec y x) as [->|_].
    + exfalso. apply Hnot. now left.
    + rewrite IH; [reflexivity|]. intros H. apply Hnot. now right.
Qed.

(** X1. When [Execute] returns, it returns as many lines as the text of the
    file has newline characters: [split] cuts one piece more than there
    are newlines and [remove] takes one piece away. *)
Theorem Execute_line_count :
  forall (fs : string -> result string) (file_name : string)
         (data : list string),
    Execute fs file_name = Ok data ->
    exists text : string,
      fs file_name = Ok text
      /\ length data = count_char newline text.
Proof.
  intros fs file_name data. unfold Execute.
  destruct (fs file_name) as [text|e]; [|discriminate].
  intros Hrem. exists text. split; [reflexivity|].
  apply remove_length in Hrem. rewrite length_split in Hrem. lia.
Qed.

Lemma Execute_line_count_witness :
  exists text : string,
    files_repeat_on_day2 "Day2.txt" = Ok text
    /\ length [sample_line "0002"; sample_line "0003"] = count_char newline text.
Proof.
  apply (Execute_line_count files_repeat_on_day2 "Day2.txt").
  vm_compute. reflexivity.
Defined.

(** X2. A file written as lines that are not empty and hold no newline,
    each ended by a newline, is read back as exactly those lines, in
    order. *)
Theorem Execute_reads_back_lines :
  forall (fs : string -> result string) (file_name : string)
         (lines : list string),
    fs file_name = Ok (join_lines lines) ->
    Forall (fun l => free_of newline l = true /\ l <> "") lines ->
    Execute fs file_name = Ok lines.
Proof.
  intros fs file_name lines Hfile Hlines. unfold Execute. rewrite Hfile.
  rewrite split_join_lines.
  - apply remove_last. intros Hin.
    rewrite Forall_forall in Hlines. now destruct (Hlines "" Hin).
  - eapply Forall_impl; [|exact Hlines]. now intros l [Hl _].
Qed.

Lemma Execute_reads_back_lines_witness :
  Execute (fun _ => Ok (join_lines [sample_line "0001"; other_line "0002"]))
          "Day1.txt"
  = Ok [sample_line "0001"; other_line "0002"].
Proof.
  apply Execute_reads_back_lines.
  - reflexivity.
  - repeat constructor; try (vm_compute; reflexivity); discriminate.
Defined.

(** X3. [Execute] raises what opening and reading the file raise, and
    beyond that only [ValueError], exactly when the text, cut at newlines,
    has no empty piece. A text that ends with a newline always has one, so
    a file that is read and ends with a newline never fails in
    [Execute]. *)
Theorem Execute_raises_iff :
  forall (fs : string -> result string) (file_name : string),
    (forall e : exn,
       Execute fs file_name = Raise e <->
       fs file_name = Raise e
       \/ (exists text : string,
             fs file_name = Ok text
             /\ ~ In "" (split newline text)
             /\ e = ValueError))
    /\ forall body : string,
        fs file_name = Ok (body ++ String newline "")%string ->
        exists data : list string, Execute fs file_name = Ok data.
Proof.
  intros fs file_name. unfold Execute. split.
  - intros e. destruct (fs file_name) as [text|e0]; split.
    + intros Hrem. right. exists text. split; [reflexivity|].
      destruct (in_dec string_dec "" (split newline text)) as [Hin|Hnot].
      * destruct (remove_found _ _ Hin) as (b & a & _ & _ & Hok). congruence.
      * rewrite (remove_absent _ _ Hnot) in Hrem. injection Hrem as <-. auto.
    + intros [Hraise|(text' & Htext & Hnot & ->)]; [discriminate|].
      injection Htext as <-. now apply remove_absent.
    + intros H. left. congruence.
    + intros [H|(text & Htext & _)]; [congruence|discriminate].
  - intros body Hfile. rewrite Hfile.
    destruct (remove_found "" (split newline (body ++ String newline "")))
      as (b & a & _ & _ & Hok).
    + rewrite split_app_sep. apply in_or_app. right. now left.
    + eauto.
Qed.

(** ** Decoding a line *)

Lemma chars_append (s1 s2 : string) :
  list_ascii_of_string (s1 ++ s2)%string
  = list_ascii_of_string s1 ++ list_ascii_of_string s2.
Proof. induction s1 as [|c s1 IH]; simpl; [reflexivity|now rewrite IH]. Qed.

Lemma chars_length (s : string) :
  length (list_ascii_of_string s) = String.length s.
Proof. induction s as [|c s IH]; simpl; [reflexivity|now rewrite IH]. Qed.

Lemma chars_substring (s : string) :
  forall n m : nat,
    list_ascii_of_string (substring n m s)
    = firstn m (skipn n (list_ascii_of_string s)).
Proof.
  induction s as [|c s IH]; intros n m.
  - destruct n, m; reflexivity.
  - destruct n as [|n]; simpl.
    + destruct m as [|m]; [reflexivity|]. simpl. now rewrite IH.
    + apply IH.
Qed.

Lemma chars_inj (s1 s2 : string) :
  list_ascii_of_string s1 = list_ascii_of_string s2 -> s1 = s2.
Proof.
  intros H. apply (f_equal string_of_list_ascii) in H.
  now rewrite !string_of_list_ascii_of_string in H.
Qed.

Lemma chars_slice (a b : nat) (s : string) :
  list_ascii_of_string (slice a b s)
  = firstn (b - a) (skipn a (list_ascii_of_string s)).
Proof.
  unfold slice. rewrite chars_substring, <- chars_length.
  set (l := list_ascii_of_string s).
  destruct (Nat.le_gt_cases (length l) a) as [Hout|Hin].
  - rewrite (Nat.min_r a) by exact Hout.
    rewrite !skipn_all2 by lia. now rewrite !firstn_nil.
  - rewrite (Nat.min_l a) by lia.
    destruct (Nat.le_gt_cases (length l) b) as [Hb|Hb].
    + rewrite (Nat.min_r b) by exact Hb.
      rewrite !firstn_all2; [reflexivity| |]; rewrite length_skipn; lia.
    + now rewrite (Nat.min_l b) by lia.
Qed.

Lemma firstn_chain {A : Type} (x y : nat) :
  forall l : list A, firstn x l ++ firstn y (skipn x l) = firstn (x + y) l.
Proof.
  induction x as [|x IH]; intros l; [reflexivity|].
  destruct l as [|h l]; simpl.
  - now rewrite firstn_nil.
  - now rewrite IH.
Qed.

Lemma slice_chain (a b c : nat) (s rest : string) :
  (a <= b)%nat -> (b <= c)%nat ->
  (slice a b s ++ (slice b c s ++ rest))%string = (slice a c s ++ rest)%string.
Proof.
  intros Hab Hbc. apply chars_inj.
  rewrite !chars_append, !chars_slice, app_assoc. f_equal.
  replace (skipn b (list_ascii_of_string s))
    with (skipn (b - a) (skipn a (list_ascii_of_string s)))
    by (rewrite skipn_skipn; f_equal; lia).
  rewrite firstn_chain. f_equal. lia.
Qed.

Lemma append_empty (s : string) : (s ++ "")%string = s.
Proof. induction s as [|c s IH]; simpl; [reflexivity|now rewrite IH]. Qed.

Lemma slice_of_prefix (a b n : nat) (s : string) :
  (b <= n)%nat -> slice a b (slice 0 n s) = slice a b s.
Proof.
  intros Hbn. apply chars_inj. rewrite !chars_slice.
  rewrite Nat.sub_0_r. cbn [skipn].
  rewrite skipn_firstn_comm, firstn_firstn. f_equal. lia.
Qed.

Lemma slice_length (a b : nat) (s : string) :
  String.length (slice a b s)
  = (Nat.min b (String.length s) - Nat.min a (String.length s))%nat.
Proof.
  rewrite <- !chars_length, chars_slice, length_firstn, length_skipn. lia.
Qed.

(** X4. The thirteen fields of a decoded line, put end to end in their
    order, are the first 149 characters of the line: the slices leave no
    gap and overlap nowhere. What comes after character 149 is never read,
    and decoding the fields put end to end gives the same dictionary
    again. *)
Theorem decode_covers_first_149 :
  forall line : string,
    record_text (decode line) = slice 0 149 line
    /\ decode (slice 0 149 line) = decode line
    /\ decode (record_text (decode line)) = decode line.
Proof.
  intros line.
  assert (Htext : record_text (decode line) = slice 0 149 line).
  { unfold record_text, fields, decode.
    cbn [fold_right Transaction_Id Customer_Id Customer_Name Customer_Addr_Id
         Product_Id Product_Nm ProductPrice ProductQuantity Status
         Transaction_time_stamp Ordered_Date Shipment_Date Delivered_Date].
    repeat (rewrite slice_chain by lia). apply append_empty. }
  assert (Hprefix : decode (slice 0 149 line) = decode line).
  { unfold decode. now rewrite !slice_of_prefix by lia. }
  split; [exact Htext|]. split; [exact Hprefix|].
  now rewrite Htext.
Qed.

(** X5. The length of each field is fixed by the length of the line alone:
    the part of the slice that the line reaches. A line of 149 characters
    or more gives the widths 6, 6, 20, 5, 7, 30, 6, 4, 12, 20, 11, 11, 11;
    a shorter line gives shorter fields, down to empty ones, and no
    error. *)
Theorem decode_field_lengths :
  forall line : string,
    let n := String.length line in
    map String.length (fields (decode line))
    = map (fun ab => (Nat.min (snd ab) n - Nat.min (fst ab) n)%nat) layout
    /\ ((149 <= n)%nat ->
        map String.length (fields (decode line))
        = [6; 6; 20; 5; 7; 30; 6; 4; 12; 20; 11; 11; 11]%nat).
Proof.
  intros line n.
  assert (Hgen : map String.length (fields (decode line))
                 = map (fun ab => (Nat.min (snd ab) n - Nat.min (fst ab) n)%nat)
                       layout).
  { unfold fields, decode, layout. cbn [map fst snd Transaction_Id Customer_Id
      Customer_Name Customer_Addr_Id Product_Id Product_Nm ProductPrice
      ProductQuantity Status Transaction_time_stamp Ordered_Date Shipment_Date
      Delivered_Date].
    now rewrite !slice_length. }
  split; [exact Hgen|].
  intros Hfull. rewrite Hgen. unfold layout. cbn [map fst snd].
  repeat (rewrite Nat.min_l by lia). reflexivity.
Qed.

(** ** Numbers and indicators along the table *)

Lemma numbered_next (t : Table) :
  numbered t -> Sql.next_rowid t = (Z.of_nat (length t) + 1)%Z.
Proof.
  unfold numbered. induction t as [|r t IH] using rev_ind; intros Hnum.
  - reflexivity.
  - rewrite length_app, Nat.add_comm in Hnum. cbn [length Nat.add] in Hnum.
    rewrite map_app, seq_S, map_app in Hnum. cbn [map] in Hnum.
    apply app_inj_tail in Hnum. destruct Hnum as [Hnum Hr].
    specialize (IH Hnum). rewrite length_app. cbn [length].
    destruct t as [|r0 t]; simpl app.
    + cbn in Hr |- *. lia.
    + unfold Sql.next_rowid in IH |- *. cbn [app].
      rewrite map_app, fold_left_app. cbn [map fold_left].
      rewrite Hr. cbn [length] in IH |- *. lia.
Qed.

Lemma numbered_insert (d : Transaction) (ind : string) (t : Table) :
  numbered t -> numbered (Sql.insert_values d ind t).
Proof.
  intros Hnum. unfold numbered, Sql.insert_values.
  rewrite length_app, Nat.add_comm. cbn [length Nat.add].
  rewrite map_app, seq_S, map_app. cbn [map Sequence].
  rewrite (numbered_next t Hnum). unfold numbered in Hnum. rewrite Hnum.
  f_equal. f_equal. lia.
Qed.

Lemma numbered_update (p : Row -> bool) (t : Table) :
  numbered t -> numbered (Sql.update_where p t).
Proof.
  unfold numbered. rewrite map_Sequence_update_where.
  unfold Sql.update_where. now rewrite length_map.
Qed.

(** X6. From the creation of the table on, the rows are numbered without a
    gap: after any days, whatever the files hold and whatever SQLite makes
    of the statements, the row at place [n] (counting from 0) has sequence
    number [n + 1], so the number of a row is its rank in the order of
    insertion. *)
Theorem rows_numbered_from_one :
  forall (fs : string -> result string) (db : Sqlite)
         (file_names : list string) (t0 : Table),
    let t := table_after (create_table ;; batch_runs fs db file_names) t0 in
    numbered t
    /\ forall (n : nat) (r : Row),
        nth_error t n = Some r -> Sequence r = (Z.of_nat n + 1)%Z.
Proof.
  intros fs db file_names t0 t.
  assert (Hnum : numbered t).
  { subst t. rewrite table_after_create.
    apply (preserves_batch_runs (fun t t' => numbered t -> numbered t')).
    - auto.
    - auto.
    - intros d ind u. apply numbered_insert.
    - intros p u. apply numbered_update.
    - reflexivity. }
  split; [exact Hnum|].
  intros n r Hn. unfold numbered in Hnum.
  assert (Hs : nth_error (map Sequence t) n = Some (Sequence r))
    by now rewrite nth_error_map, Hn.
  rewrite Hnum, nth_error_map, nth_error_seq in Hs.
  destruct (n <? length t)%nat; [|discriminate].
  simpl in Hs. injection Hs as <-. lia.
Qed.

Lemma only_retires_refl (t : Table) : only_retires t t.
Proof. intros n r Hn. exists r. auto. Qed.

Lemma only_retires_trans (t1 t2 t3 : Table) :
  only_retires t1 t2 -> only_retires t2 t3 -> only_retires t1 t3.
Proof.
  intros H12 H23 n r Hn.
  destruct (H12 n r Hn) as (r2 & Hn2 & H2).
  destruct (H23 n r2 Hn2) as (r3 & Hn3 & H3).
  exists r3. split; [exact Hn3|].
  destruct H3 as [H3|H3]; [rewrite H3; exact H2|now right].
Qed.

Lemma only_retires_insert (d : Transaction) (ind : string) (t : Table) :
  only_retires t (Sql.insert_values d ind t).
Proof.
  intros n r Hn. exists r. split; [|now left].
  unfold Sql.insert_values. rewrite nth_error_app1; [exact Hn|].
  apply nth_error_Some. congruence.
Qed.

Lemma only_retires_update (p : Row -> bool) (t : Table) :
  only_retires t (Sql.update_where p t).
Proof.
  intros n r Hn. eexists. split; [apply nth_error_update_where; exact Hn|].
  destruct (p r); [now right|now left].
Qed.

(** X7. A row that is retired stays retired: through any days, whatever
    the files hold, whatever rows an UPDATE selects and also when a run
    stops on an exception, every row of the table is still at its place
    with the indicator it had, or with 'N'. No statement of the program
    sets an indicator back to 'Y'. *)
Theorem retired_rows_stay_retired :
  forall (fs : string -> result string) (db : Sqlite)
         (file_names : list string) (t : Table) (n : nat) (r : Row),
    nth_error t n = Some r ->
    exists r' : Row,
      nth_error (table_after (batch_runs fs db file_names) t) n = Some r'
      /\ (ACTIVE_IND r' = ACTIVE_IND r \/ ACTIVE_IND r' = "N").
Proof.
  intros fs db file_names t.
  apply (preserves_batch_runs only_retires only_retires_refl
           only_retires_trans only_retires_insert only_retires_update).
Qed.

Lemma retired_rows_stay_retired_witness :
  exists r' : Row,
    nth_error
      (table_after
         (batch_runs files_repeat_on_day2 sqlite_strict ["Day2.txt"; "Day3.txt"])
         [mkRow 1 (decode (sample_line "0001")) "N"]) 0
    = Some r'
    /\ (ACTIVE_IND r' = "N" \/ ACTIVE_IND r' = "N").
Proof.
  apply (retired_rows_stay_retired files_repeat_on_day2 sqlite_strict
           ["Day2.txt"; "Day3.txt"]
           [mkRow 1 (decode (sample_line "0001")) "N"] 0
           (mkRow 1 (decode (sample_line "0001")) "N")).
  reflexivity.
Defined.

(** ** Batches of new keys, of known keys, and both *)

Lemma find_absent (d : Transaction) (final_data : list Row) :
  (forall j, In j final_data -> row_key j <> key_of d) ->
  find (fun j => same_key j d) final_data = None.
Proof.
  intros Habsent.
  destruct (find (fun j => same_key j d) final_data) as [j|] eqn:Hfind;
    [|reflexivity].
  apply find_some in Hfind. destruct Hfind as [Hin Hkey].
  apply same_key_eq in Hkey. now apply Habsent in Hin.
Qed.

(** X8. A batch of records of plain text, none of whose keys occurs in the
    snapshot, is only inserted: no UPDATE is sent, the rows of the table
    stay as they are, and every record becomes an active row, in the order
    of the batch, also when the batch holds a new key more than once. *)
Theorem new_keys_are_only_inserted :
  forall (db : Sqlite) (lst : list Transaction) (final_data : list Row)
         (t : Table),
    forallb plain_record lst = true ->
    (forall d j, In d lst -> In j final_data -> row_key j <> key_of d) ->
    Main_logic db lst final_data t
    = (Ok tt, t ++ baseline_rows (Sql.next_rowid t) lst).
Proof.
  intros db lst final_data t Hplain Hnew.
  rewrite <- (for_each_Insert db lst Hplain), Main_logic_reconcile.
  clear Hplain. revert t. induction lst as [|d lst IH]; intros t; [reflexivity|].
  cbn [for_each]. apply bind_ext.
  - unfold reconcile. rewrite find_absent; [reflexivity|].
    intros j. apply Hnew. now left.
  - intros _ u. apply IH. intros d' j Hd'. apply Hnew. now right.
Qed.

Lemma new_keys_are_only_inserted_witness :
  let old := mkRow 1 (decode (sample_line "0001")) "Y" in
  let lst := [decode (other_line "0001"); decode (other_line "0002")] in
  Main_logic sqlite_strict lst [old] [old]
  = (Ok tt, [old] ++ baseline_rows (Sql.next_rowid [old]) lst).
Proof.
  intros old lst. apply new_keys_are_only_inserted.
  - vm_compute. reflexivity.
  - intros d j [<-|[<-|[]]] [<-|[]]; vm_compute; discriminate.
Defined.

Lemma key_eqb_sym (k1 k2 : string * string * string) :
  key_eqb k1 k2 = key_eqb k2 k1.
Proof.
  destruct (key_eqb k1 k2) eqn:H12, (key_eqb k2 k1) eqn:H21; trivial.
  - apply key_eqb_eq in H12. subst. now rewrite key_eqb_refl in H21.
  - apply key_eqb_eq in H21. subst. now rewrite key_eqb_refl in H12.
Qed.

Lemma active_count_update_other (k : string * string * string)
      (a b c : string) (t : Table) :
  key_eqb (a, b, c) k = false ->
  active_count k (Sql.update_inactive a b c t) = active_count k t.
Proof.
  intros Hother. unfold active_count, rows_of_key, Sql.update_inactive.
  induction t as [|r t IH]; [reflexivity|]. cbn [map filter].
  rewrite where_key_eqb.
  destruct (key_eqb (row_key r) (a, b, c)) eqn:Hr.
  - change (row_key (Sql.set_inactive r)) with (row_key r).
    apply key_eqb_eq in Hr.
    assert (Hk : key_eqb (row_key r) k = false) by now rewrite Hr.
    rewrite Hk. exact IH.
  - destruct (key_eqb (row_key r) k); [|exact IH].
    cbn [filter]. destruct (is_active r); [|exact IH].
    cbn [length]. now rewrite IH.
Qed.

Lemma find_key_in_table (d : Transaction) (final_data : list Row) :
  match find (fun j => same_key j d) final_data with
  | Some j => row_key j = key_of d /\ key_in_table (key_of d) final_data = true
  | None => key_in_table (key_of d) final_data = false
  end.
Proof.
  unfold key_in_table.
  induction final_data as [|j rest IH]; [reflexivity|]. cbn [find existsb].
  change (same_key j d) with (key_eqb (row_key j) (key_of d)).
  destruct (key_eqb (row_key j) (key_of d)) eqn:Hj.
  - split; [now apply key_eqb_eq|reflexivity].
  - exact IH.
Qed.

Lemma active_rows_after_Main_logic (db : Sqlite) (lst : list Transaction)
      (final_data : list Row) :
  (forall d, In d lst -> canonical_key (key_of d)) ->
  forallb plain_record lst = true ->
  forall t : Table, exists t' : Table,
    Main_logic db lst final_data t = (Ok tt, t')
    /\ forall k : string * string * string,
        active_count k t' =
        if key_in_batch k lst && key_in_table k final_data then 1%nat
        else (active_count k t + occurrences k lst)%nat.
Proof.
  induction lst as [|d lst IH]; intros Hcan Hplain t.
  - exists t. split; [reflexivity|]. intros k. cbn. lia.
  - assert (Hd : literal_key (key_of d) = Some (key_of d)).
    { apply canonical_literal_key, Hcan. now left. }
    assert (Hrest : forall d', In d' lst -> canonical_key (key_of d')).
    { intros d' Hd'. apply Hcan. now right. }
    cbn [forallb] in Hplain. apply andb_true_iff in Hplain.
    destruct Hplain as [Hpd Hplst].
    rewrite Main_logic_cons. unfold bind.
    pose proof (find_key_in_table d final_data) as Hfind.
    destruct (key_of d) as [[a b] c] eqn:Hkd.
    destruct (find (fun j => same_key j d) final_data) as [j|] eqn:Hf.
    + destruct Hfind as [Hj Hin].
      rewrite (turn_match db final_data d t j a b c Hf) by now rewrite Hj.
      rewrite (Insert_plain db d _ Hpd).
      destruct (IH Hrest Hplst
                   (Sql.insert_values d "Y" (Sql.update_inactive a b c t)))
        as (t' & Hrun & Hcount).
      exists t'. split; [exact Hrun|]. intros k. rewrite (Hcount k).
      unfold key_in_batch, occurrences. cbn [existsb filter]. rewrite Hkd.
      fold (key_in_batch k lst). fold (occurrences k lst).
      destruct (key_in_batch k lst && key_in_table k final_data) eqn:Hlater.
      * apply andb_true_iff in Hlater. destruct Hlater as [H1 H2].
        now rewrite H1, H2, orb_true_r.
      * rewrite active_count_insert, Hkd.
        destruct (key_eqb (a, b, c) k) eqn:Hk.
        -- apply key_eqb_eq in Hk. subst k. rewrite Hin in *.
           rewrite andb_true_r in Hlater. rewrite Hlater.
           unfold occurrences in *.
           assert (Hnone : filter (fun d0 => key_eqb (key_of d0) (a, b, c)) lst = []).
           { clear -Hlater. unfold key_in_batch in Hlater.
             induction lst as [|d0 lst IH]; [reflexivity|].
             cbn [existsb filter] in *. apply orb_false_iff in Hlater.
             destruct Hlater as [H0 Hl]. rewrite H0. now apply IH. }
           rewrite Hnone, active_count_update. reflexivity.
        -- rewrite active_count_update_other by exact Hk.
           cbn [orb]. rewrite Hlater. unfold occurrences. lia.
    + rewrite (turn_no_match db final_data d t Hf).
      rewrite (Insert_plain db d _ Hpd).
      destruct (IH Hrest Hplst (Sql.insert_values d "Y" t))
        as (t' & Hrun & Hcount).
      exists t'. split; [exact Hrun|]. intros k. rewrite (Hcount k).
      unfold key_in_batch, occurrences. cbn [existsb filter]. rewrite Hkd.
      fold (key_in_batch k lst). fold (occurrences k lst).
      rewrite active_count_insert, Hkd.
      destruct (key_eqb (a, b, c) k) eqn:Hk.
      * apply key_eqb_eq in Hk. subst k. rewrite Hfind.
        rewrite !andb_false_r. unfold occurrences. cbn [length]. lia.
      * cbn [orb]. destruct (key_in_batch k lst && key_in_table k final_data);
          [reflexivity|unfold occurrences; lia].
Qed.

(** X9. For a batch of records of plain text whose ids are plain integers,
    matched against the table it is applied to, the run returns and the
    active rows of every key are counted as follows. A key of the batch
    that has a row in the table ends with exactly one active row, however
    many it had and however often the batch holds it. A key of the batch
    that has no row in the table ends with one active row per record that
    carries it, so a new key held twice gets two. A key that is not in the
    batch keeps its active rows. *)
Theorem active_rows_after_batch :
  forall (db : Sqlite) (lst : list Transaction) (t : Table),
    (forall d, In d lst -> canonical_key (key_of d)) ->
    forallb plain_record lst = true ->
    exists t' : Table,
      (final_data <- Final_data ;; Main_logic db lst final_data) t = (Ok tt, t')
      /\ forall k : string * string * string,
          active_count k t' =
          if key_in_batch k lst && key_in_table k t then 1%nat
          else (active_count k t + occurrences k lst)%nat.
Proof.
  intros db lst t Hcan Hplain. unfold bind, Final_data.
  now apply active_rows_after_Main_logic.
Qed.

Lemma active_rows_after_batch_witness :
  let t := [mkRow 1 (decode (sample_line "0001")) "Y"] in
  let lst := [decode (sample_line "0002"); decode (other_line "0001");
              decode (sample_line "0003"); decode (other_line "0002")] in
  exists t' : Table,
    (final_data <- Final_data ;; Main_logic sqlite_strict lst final_data) t
    = (Ok tt, t')
    /\ forall k : string * string * string,
        active_count k t' =
        if key_in_batch k lst && key_in_table k t then 1%nat
        else (active_count k t + occurrences k lst)%nat.
Proof.
  intros t lst. apply active_rows_after_batch.
  - intros d [<-|[<-|[<-|[<-|[]]]]]; vm_compute; repeat split.
  - vm_compute. reflexivity.
Defined.

(** X12. Ids that are integers written with leading zeros or padding are
    accepted by the UPDATE but read as other texts than the ones stored,
    so the retirement that follows a match finds no row with the ids of the
    record: a record of plain text with such ids that has a row in the
    table is inserted and retires none of the rows of its key, which gains
    one active row each time the record comes back. *)
Theorem padded_ids_retire_nothing :
  forall (db : Sqlite) (d : Transaction) (t : Table)
         (k' : string * string * string),
    plain_record d = true ->
    key_in_table (key_of d) t = true ->
    literal_key (key_of d) = Some k' ->
    k' <> key_of d ->
    exists t' : Table,
      (final_data <- Final_data ;; Main_logic db [d] final_data) t = (Ok tt, t')
      /\ active_count (key_of d) t' = S (active_count (key_of d) t)
      /\ forall (n : nat) (r : Row),
          nth_error t n = Some r -> row_key r = key_of d ->
          nth_error t' n = Some r.
Proof.
  intros db d t [[a b] c] Hplain Hin Hlit Hother.
  pose proof (find_key_in_table d t) as Hfind. rewrite Hin in Hfind.
  destruct (find (fun j => same_key j d) t) as [j|] eqn:Hf; [|discriminate].
  destruct Hfind as [Hj _].
  assert (Hneq : key_eqb (a, b, c) (key_of d) = false).
  { destruct (key_eqb (a, b, c) (key_of d)) eqn:Hk; [|reflexivity].
    now apply key_eqb_eq in Hk. }
  exists (Sql.insert_values d "Y" (Sql.update_inactive a b c t)).
  split; [|split].
  - unfold bind at 1, Final_data. rewrite Main_logic_cons. unfold bind.
    rewrite (turn_match db t d t j a b c Hf) by now rewrite Hj.
    now rewrite (Insert_plain db d _ Hplain).
  - rewrite active_count_insert, key_eqb_refl.
    rewrite active_count_update_other by exact Hneq. lia.
  - intros n r Hn Hr. unfold Sql.insert_values.
    rewrite nth_error_app1.
    + rewrite (nth_error_update a b c t n r Hn), Hr, key_eqb_sym, Hneq.
      reflexivity.
    + unfold Sql.update_inactive. rewrite length_map.
      apply nth_error_Some. congruence.
Qed.

Lemma padded_ids_retire_nothing_witness :
  let d := decode (sample_line_zeros "0002") in
  let t := [mkRow 1 (decode (sample_line_zeros "0001")) "Y"] in
  exists t' : Table,
    (final_data <- Final_data ;; Main_logic sqlite_strict [d] final_data) t
    = (Ok tt, t')
    /\ active_count (key_of d) t' = S (active_count (key_of d) t)
    /\ forall (n : nat) (r : Row),
        nth_error t n = Some r -> row_key r = key_of d ->
        nth_error t' n = Some r.
Proof.
  intros d t.
  apply (padded_ids_retire_nothing sqlite_strict d t ("120", "34", "567")).
  - vm_compute. reflexivity.
  - vm_compute. reflexivity.
  - vm_compute. reflexivity.
  - vm_compute. discriminate.
Defined.
(** ** What the matching does not look at *)

Lemma next_rowid_ext (t1 t2 : Table) :
  map Sequence t1 = map Sequence t2 -> Sql.next_rowid t1 = Sql.next_rowid t2.
Proof.
  destruct t1 as [|r1 t1], t2 as [|r2 t2]; try discriminate; [reflexivity|].
  cbn [map]. intros H. injection H as Hr Ht.
  unfold Sql.next_rowid. now rewrite Hr, Ht.
Qed.

Lemma skeleton_Sequence (t : Table) :
  map Sequence t = map (fun s => fst (fst s)) (map skeleton t).
Proof. rewrite map_map. reflexivity. Qed.

Lemma skeleton_row_key (t : Table) :
  map row_key t = map (fun s => snd (fst s)) (map skeleton t).
Proof. rewrite map_map. reflexivity. Qed.

Lemma skeleton_insert (d1 d2 : Transaction) (t1 t2 : Table) :
  key_of d1 = key_of d2 ->
  map skeleton t1 = map skeleton t2 ->
  map skeleton (Sql.insert_values d1 "Y" t1)
  = map skeleton (Sql.insert_values d2 "Y" t2).
Proof.
  intros Hk Ht. unfold Sql.insert_values. rewrite !map_app, Ht.
  cbn [map]. unfold skeleton at 2 4. cbn [Sequence ACTIVE_IND].
  change (row_key (mkRow (Sql.next_rowid t1) d1 "Y")) with (key_of d1).
  change (row_key (mkRow (Sql.next_rowid t2) d2 "Y")) with (key_of d2).
  rewrite Hk, (next_rowid_ext t1 t2); [reflexivity|].
  now rewrite !skeleton_Sequence, Ht.
Qed.

Lemma skeleton_update (a b c : string) (t : Table) :
  map skeleton (Sql.update_inactive a b c t)
  = map (fun s => if key_eqb (snd (fst s)) (a, b, c)
                  then (fst (fst s), snd (fst s), "N") else s)
        (map skeleton t).
Proof.
  unfold Sql.update_inactive, Sql.update_where. rewrite !map_map.
  apply map_ext. intros r.
  rewrite where_key_eqb. cbn [skeleton fst snd].
  now destruct (key_eqb (row_key r) (a, b, c)).
Qed.

Lemma find_same_keys (d1 d2 : Transaction) :
  key_of d1 = key_of d2 ->
  forall fd1 fd2 : list Row,
    map row_key fd1 = map row_key fd2 ->
    match find (fun j => same_key j d1) fd1,
          find (fun j => same_key j d2) fd2 with
    | Some j1, Some j2 => row_key j1 = row_key j2 /\ row_key j1 = key_of d1
    | None, None => True
    | _, _ => False
    end.
Proof.
  intros Hk. induction fd1 as [|j1 fd1 IH]; intros [|j2 fd2] Hfd;
    try discriminate; [exact I|].
  cbn [map] in Hfd.
  assert (Hj : row_key j1 = row_key j2) by congruence.
  assert (Hrest : map row_key fd1 = map row_key fd2) by congruence.
  cbn [find].
  change (same_key j1 d1) with (key_eqb (row_key j1) (key_of d1)).
  change (same_key j2 d2) with (key_eqb (row_key j2) (key_of d2)).
  replace (key_eqb (row_key j1) (key_of d1))
    with (key_eqb (row_key j2) (key_of d2)) by now rewrite Hj, Hk.
  destruct (key_eqb (row_key j2) (key_of d2)) eqn:Hm; [|now apply IH].
  apply key_eqb_eq in Hm. split; congruence.
Qed.

Lemma turn_same_skeleton (db : Sqlite) (d1 d2 : Transaction)
      (fd1 fd2 : list Row) (t1 t2 : Table) :
  plain_record d1 = true ->
  plain_record d2 = true ->
  literal_key (key_of d1) <> None ->
  key_of d1 = key_of d2 ->
  map row_key fd1 = map row_key fd2 ->
  map skeleton t1 = map skeleton t2 ->
  exists u1 u2 : Table,
    turn db fd1 d1 t1 = (Ok tt, u1)
    /\ turn db fd2 d2 t2 = (Ok tt, u2)
    /\ map skeleton u1 = map skeleton u2.
Proof.
  intros Hp1 Hp2 Hlit Hk Hfd Ht.
  pose proof (find_same_keys d1 d2 Hk fd1 fd2 Hfd) as Hfind.
  destruct (find (fun j => same_key j d1) fd1) as [j1|] eqn:H1,
           (find (fun j => same_key j d2) fd2) as [j2|] eqn:H2;
    try contradiction.
  - destruct Hfind as [Hj Hjd].
    destruct (literal_key (key_of d1)) as [[[a b] c]|] eqn:Hl; [|congruence].
    rewrite (turn_match db fd1 d1 t1 j1 a b c H1) by now rewrite Hjd.
    rewrite (turn_match db fd2 d2 t2 j2 a b c H2) by now rewrite <- Hj, Hjd.
    rewrite (Insert_plain db d1 _ Hp1), (Insert_plain db d2 _ Hp2).
    eexists _, _. split; [reflexivity|]. split; [reflexivity|].
    apply skeleton_insert; [exact Hk|].
    now rewrite !skeleton_update, Ht.
  - rewrite (turn_no_match db fd1 d1 t1 H1), (turn_no_match db fd2 d2 t2 H2).
    rewrite (Insert_plain db d1 _ Hp1), (Insert_plain db d2 _ Hp2).
    eexists _, _. split; [reflexivity|]. split; [reflexivity|].
    now apply skeleton_insert.
Qed.

Lemma Main_logic_same_skeleton (db : Sqlite) (fd1 fd2 : list Row) :
  map row_key fd1 = map row_key fd2 ->
  forall (lst1 lst2 : list Transaction) (t1 t2 : Table),
    forallb plain_record lst1 = true ->
    forallb plain_record lst2 = true ->
    (forall d, In d lst1 -> literal_key (key_of d) <> None) ->
    map key_of lst1 = map key_of lst2 ->
    map skeleton t1 = map skeleton t2 ->
    exists u1 u2 : Table,
      Main_logic db lst1 fd1 t1 = (Ok tt, u1)
      /\ Main_logic db lst2 fd2 t2 = (Ok tt, u2)
      /\ map skeleton u1 = map skeleton u2.
Proof.
  intros Hfd. induction lst1 as [|d1 lst1 IH];
    intros [|d2 lst2] t1 t2 Hp1 Hp2 Hlit Hl Ht; try discriminate.
  - exists t1, t2. repeat split; trivial.
  - cbn [map] in Hl.
    assert (Hk : key_of d1 = key_of d2) by congruence.
    assert (Hrest : map key_of lst1 = map key_of lst2) by congruence.
    cbn [forallb] in Hp1, Hp2.
    apply andb_true_iff in Hp1, Hp2.
    destruct Hp1 as [Hd1 Hp1], Hp2 as [Hd2 Hp2].
    destruct (turn_same_skeleton db d1 d2 fd1 fd2 t1 t2 Hd1 Hd2
                (Hlit d1 (or_introl eq_refl)) Hk Hfd Ht)
      as (v1 & v2 & Hv1 & Hv2 & Hv).
    rewrite !Main_logic_cons. unfold bind. rewrite Hv1, Hv2.
    apply IH; trivial.
    intros d Hd. apply Hlit. now right.
Qed.

(** X10. Only the three ids of a record are looked at. Two batches of
    records of plain text whose ids are integers, with the same keys in the
    same order, applied to two tables with the same numbers, keys and
    indicators, both return and leave tables with the same numbers, keys
    and indicators: name, price, quantity, status and dates, of the records
    and of the rows, never decide a match, a retirement or a number. *)
Theorem other_columns_play_no_part :
  forall (db : Sqlite) (lst1 lst2 : list Transaction) (t1 t2 : Table),
    forallb plain_record lst1 = true ->
    forallb plain_record lst2 = true ->
    (forall d, In d lst1 -> literal_key (key_of d) <> None) ->
    map key_of lst1 = map key_of lst2 ->
    map skeleton t1 = map skeleton t2 ->
    outcome (final_data <- Final_data ;; Main_logic db lst1 final_data) t1 = Ok tt
    /\ outcome (final_data <- Final_data ;; Main_logic db lst2 final_data) t2 = Ok tt
    /\ map skeleton
           (table_after (final_data <- Final_data ;; Main_logic db lst1 final_data) t1)
       = map skeleton
           (table_after (final_data <- Final_data ;; Main_logic db lst2 final_data) t2).
Proof.
  intros db lst1 lst2 t1 t2 Hp1 Hp2 Hlit Hl Ht.
  unfold outcome, table_after, bind, Final_data.
  destruct (Main_logic_same_skeleton db t1 t2) with (lst1 := lst1) (lst2 := lst2)
                                                    (t1 := t1) (t2 := t2)
    as (u1 & u2 & H1 & H2 & Hu); trivial.
  - now rewrite !skeleton_row_key, Ht.
  - rewrite H1, H2. repeat split; trivial.
Qed.

Lemma other_columns_play_no_part_witness :
  let lst1 := [decode (sample_line "0002")] in
  let lst2 := [decode (sample_line "0999")] in
  let t1 := [mkRow 1 (decode (sample_line "0001")) "Y"] in
  let t2 := [mkRow 1 (decode (sample_line "0500")) "Y"] in
  outcome (final_data <- Final_data ;; Main_logic sqlite_strict lst1 final_data) t1
  = Ok tt
  /\ outcome (final_data <- Final_data ;; Main_logic sqlite_strict lst2 final_data) t2
     = Ok tt
  /\ map skeleton
         (table_after
            (final_data <- Final_data ;; Main_logic sqlite_strict lst1 final_data) t1)
     = map skeleton
         (table_after
            (final_data <- Final_data ;; Main_logic sqlite_strict lst2 final_data) t2).
Proof.
  intros lst1 lst2 t1 t2.
  apply other_columns_play_no_part.
  - vm_compute. reflexivity.
  - vm_compute. reflexivity.
  - intros d [<-|[]]. vm_compute. discriminate.
  - vm_compute. reflexivity.
  - vm_compute. reflexivity.
Defined.

(** ** Rows and lines *)

Lemma Insert_length (db : Sqlite) (d : Transaction) (t t' : Table) :
  plain_record d = true ->
  Insert db d t = (Ok tt, t') -> length t' = S (length t).
Proof.
  intros Hplain. rewrite (Insert_plain db d t Hplain).
  intros H. injection H as <-. unfold Sql.insert_values.
  rewrite length_app. cbn [length]. lia.
Qed.

Lemma execute_update_length (db : Sqlite) (j : Row) (t t' : Table) :
  execute_update db j t = (Ok tt, t') -> length t' = length t.
Proof.
  unfold execute_update.
  destruct (selected db _ _ _ t) as [p|]; [|discriminate].
  intros H. injection H as <-. unfold Sql.update_where. apply length_map.
Qed.

Lemma reconcile_length (db : Sqlite) (final_data : list Row) (d : Transaction)
      (t t' : Table) :
  plain_record d = true ->
  reconcile db final_data d t = (Ok tt, t') -> length t' = S (length t).
Proof.
  intros Hplain. unfold reconcile.
  destruct (find (fun j => same_key j d) final_data) as [j|].
  - unfold bind. destruct (execute_update db j t) as [[[]|e] u] eqn:Hu;
      [|discriminate].
    intros Hi. apply (Insert_length db d u t' Hplain) in Hi.
    apply execute_update_length in Hu. lia.
  - now apply Insert_length.
Qed.

Lemma for_each_length {A : Type} (f : A -> M unit) (xs : list A) :
  (forall x t t', In x xs -> f x t = (Ok tt, t') -> length t' = S (length t)) ->
  forall t t' : Table,
    for_each xs f t = (Ok tt, t') ->
    length t' = (length t + length xs)%nat.
Proof.
  induction xs as [|x xs IH]; intros Hf t t' Hrun.
  - injection Hrun as <-. cbn. lia.
  - cbn [for_each] in Hrun. unfold bind in Hrun.
    destruct (f x t) as [[[]|e] u] eqn:Hx; [|discriminate].
    apply Hf in Hx; [|now left]. apply IH in Hrun.
    + cbn [length]. lia.
    + intros y v v' Hy. apply Hf. now right.
Qed.

Lemma remove_subset (x : string) (l : list string) :
  forall r, remove x l = Ok r -> forall y, In y r -> In y l.
Proof.
  induction l as [|z l IH]; intros r Hr y Hy; simpl in Hr; [discriminate|].
  destruct (String.eqb z x).
  - injection Hr as <-. now right.
  - destruct (remove x l) as [r'|e]; [|discriminate].
    injection Hr as <-. destruct Hy as [<-|Hy]; [now left|].
    right. now apply (IH r').
Qed.

Lemma processOnlineshopping_returned (fs : string -> result string)
      (db : Sqlite) (file_name : string) (t t' : Table) :
  (forall text, fs file_name = Ok text -> plain_lines text = true) ->
  processOnlineshopping fs db file_name t = (Ok tt, t') ->
  exists text : string,
    fs file_name = Ok text
    /\ length t' = (length t + count_char newline text)%nat.
Proof.
  intros Hplain. unfold processOnlineshopping, bind at 1, lift, Execute.
  destruct (fs file_name) as [text|e0]; [|discriminate].
  specialize (Hplain text eq_refl).
  destruct (remove "" (split newline text)) as [data|e] eqn:Hrem; [|discriminate].
  intros Hrun. exists text. split; [reflexivity|].
  assert (Hrec : forall x, In x (Usable data) -> plain_record x = true).
  { intros x Hx. rewrite Usable_map in Hx. apply in_map_iff in Hx.
    destruct Hx as (i & <- & Hi).
    apply (remove_subset _ _ _ Hrem) in Hi.
    unfold plain_lines in Hplain. rewrite forallb_forall in Hplain.
    now apply Hplain. }
  apply remove_length in Hrem. rewrite length_split in Hrem.
  assert (Hlen : length (Usable data) = count_char newline text).
  { rewrite Usable_map, length_map. lia. }
  rewrite <- Hlen.
  destruct (String.eqb file_name "Day1.txt").
  - revert Hrun. apply for_each_length. intros x u u' Hx.
    apply Insert_length. now apply Hrec.
  - unfold bind, Final_data in Hrun. rewrite Main_logic_reconcile in Hrun.
    revert Hrun. apply for_each_length. intros x u u' Hx.
    apply reconcile_length. now apply Hrec.
Qed.

(** X13. Every line becomes a row. When a sequence of days on files of
    plain text returns, the table has grown by the number of newline
    characters of the files read, day by day, whichever branch each day
    took: no line is skipped, merged or inserted twice. *)
Theorem batch_runs_row_count :
  forall (fs : string -> result string) (db : Sqlite)
         (file_names : list string) (t t' : Table),
    (forall name text, In name file_names -> fs name = Ok text ->
                       plain_lines text = true) ->
    batch_runs fs db file_names t = (Ok tt, t') ->
    length t' = (length t + list_sum (map (lines_of_file fs) file_names))%nat.
Proof.
  intros fs db file_names. unfold batch_runs.
  induction file_names as [|name names IH]; intros t t' Hplain Hrun.
  - injection Hrun as <-. cbn. lia.
  - cbn [for_each] in Hrun. unfold bind in Hrun.
    destruct (processOnlineshopping fs db name t) as [[[]|e] t1] eqn:Hday;
      [|discriminate].
    apply processOnlineshopping_returned in Hday;
      [|intros text; apply Hplain; now left].
    assert (Hrest : forall name' text, In name' names -> fs name' = Ok text ->
                                        plain_lines text = true).
    { intros name' text Hin. apply Hplain. now right. }
    destruct Hday as (text & Hfile & Hlen).
    assert (Hname : lines_of_file fs name = count_char newline text)
      by (unfold lines_of_file; now rewrite Hfile).
    rewrite (IH _ _ Hrest Hrun), Hlen. cbn [map]. rewrite Hname.
    change (list_sum (count_char newline text :: map (lines_of_file fs) names))
      with (count_char newline text + list_sum (map (lines_of_file fs) names))%nat.
    lia.
Qed.

Lemma batch_runs_row_count_witness :
  length (table_after
            (batch_runs files_repeat_on_day2 sqlite_strict ["Day1.txt"; "Day2.txt"]) [])
  = (length (@nil Row)
     + list_sum (map (lines_of_file files_repeat_on_day2) ["Day1.txt"; "Day2.txt"]))%nat.
Proof.
  apply (batch_runs_row_count files_repeat_on_day2 sqlite_strict
           ["Day1.txt"; "Day2.txt"] []).
  - intros name text [<-|[<-|[]]] Htext; injection Htext as <-;
      vm_compute; reflexivity.
  - vm_compute. reflexivity.
Defined.


Lemma Main_logic_returns (db : Sqlite) (lst : list Transaction)
      (final_data : list Row) :
  forallb plain_record lst = true ->
  (forall d, In d lst -> literal_key (key_of d) <> None) ->
  forall t : Table, exists t' : Table,
    Main_logic db lst final_data t = (Ok tt, t').
Proof.
  induction lst as [|d lst IH]; intros Hplain Hlit t.
  - exists t. reflexivity.
  - cbn [forallb] in Hplain. apply andb_true_iff in Hplain.
    destruct Hplain as [Hd Hlst].
    assert (Hrest : forall d', In d' lst -> literal_key (key_of d') <> None).
    { intros d' Hd'. apply Hlit. now right. }
    rewrite Main_logic_cons. unfold bind.
    destruct (find (fun j => same_key j d) final_data) as [j|] eqn:Hfind.
    + assert (Hj : row_key j = key_of d).
      { apply find_some in Hfind. now apply same_key_eq. }
      destruct (literal_key (row_key j)) as [[[a b] c]|] eqn:Hl.
      * rewrite (turn_match db final_data d t j a b c Hfind Hl).
        rewrite (Insert_plain db d _ Hd). apply (IH Hlst Hrest).
      * exfalso. apply (Hlit d (or_introl eq_refl)). now rewrite <- Hj.
    + rewrite (turn_no_match db final_data d t Hfind).
      rewrite (Insert_plain db d _ Hd). apply (IH Hlst Hrest).
Qed.

(** X17. A batch of records of plain text whose ids are integers, padded
    or not, always runs to its end against the table it is applied to, and
    adds exactly one row per record, whether the keys have rows in the
    table or not. So applying a batch a second time is never without
    effect: the table grows again by the length of the batch. *)
Theorem integer_ids_batch_adds_rows :
  forall (db : Sqlite) (lst : list Transaction) (t : Table),
    forallb plain_record lst = true ->
    (forall d, In d lst -> literal_key (key_of d) <> None) ->
    exists t' : Table,
      (final_data <- Final_data ;; Main_logic db lst final_data) t = (Ok tt, t')
      /\ length t' = (length t + length lst)%nat
      /\ exists t'' : Table,
           (final_data <- Final_data ;; Main_logic db lst final_data) t'
           = (Ok tt, t'')
           /\ length t'' = (length t + 2 * length lst)%nat.
Proof.
  intros db lst t Hplain Hlit. unfold bind, Final_data.
  destruct (Main_logic_returns db lst t Hplain Hlit t) as [t' Hrun].
  assert (Hlen : length t' = (length t + length lst)%nat).
  { rewrite Main_logic_reconcile in Hrun. revert Hrun.
    apply for_each_length. intros x u u' Hx. apply reconcile_length.
    rewrite forallb_forall in Hplain. now apply Hplain. }
  exists t'. split; [exact Hrun|]. split; [exact Hlen|].
  destruct (Main_logic_returns db lst t' Hplain Hlit t') as [t'' Hrun'].
  exists t''. split; [exact Hrun'|].
  rewrite Main_logic_reconcile in Hrun'.
  apply for_each_length in Hrun'.
  - lia.
  - intros x u u' Hx. apply reconcile_length.
    rewrite forallb_forall in Hplain. now apply Hplain.
Qed.

Lemma integer_ids_batch_adds_rows_witness :
  let lst := [decode (sample_line_zeros "0001"); decode (sample_line "0002")] in
  let t := [mkRow 1 (decode (sample_line "0001")) "Y"] in
  exists t' : Table,
    (final_data <- Final_data ;; Main_logic sqlite_strict lst final_data) t
    = (Ok tt, t')
    /\ length t' = (length t + length lst)%nat
    /\ exists t'' : Table,
         (final_data <- Final_data ;; Main_logic sqlite_strict lst final_data) t'
         = (Ok tt, t'')
         /\ length t'' = (length t + 2 * length lst)%nat.
Proof.
  intros lst t. apply integer_ids_batch_adds_rows.
  - vm_compute. reflexivity.
  - intros d [<-|[<-|[]]]; vm_compute; discriminate.
Defined.

(** ** The script and the functions *)






(** ** One active row per key *)

Lemma occurrences_key_in_batch (k : string * string * string)
      (lst : list Transaction) :
  (key_in_batch k lst = true -> (1 <= occurrences k lst)%nat)
  /\ (key_in_batch k lst = false -> occurrences k lst = 0%nat).
Proof.
  unfold key_in_batch, occurrences.
  induction lst as [|d lst [IHt IHf]]; cbn [existsb filter].
  - split; [discriminate|reflexivity].
  - destruct (key_eqb (key_of d) k); cbn [orb length].
    + split; [lia|discriminate].
    + split; assumption.
Qed.

Lemma active_count_absent (k : string * string * string) (t : Table) :
  key_in_table k t = false -> active_count k t = 0%nat.
Proof.
  unfold key_in_table, active_count, rows_of_key.
  induction t as [|r t IH]; cbn [existsb filter]; [reflexivity|].
  destruct (key_eqb (row_key r) k); cbn [orb]; [discriminate|exact IH].
Qed.

(** X16. A batch of records of plain text with plain integer ids, matched
    against the table it is applied to, never takes the last active row of
    a key away: a key that had an active row has one afterwards, and so has
    every key of the batch. And when no key had more than one active row,
    and no key new to the table comes twice in the batch, no key has more
    than one afterwards. *)
Theorem batch_keeps_keys_active :
  forall (db : Sqlite) (lst : list Transaction) (t : Table),
    (forall d, In d lst -> canonical_key (key_of d)) ->
    forallb plain_record lst = true ->
    exists t' : Table,
      (final_data <- Final_data ;; Main_logic db lst final_data) t = (Ok tt, t')
      /\ (forall k, (1 <= active_count k t)%nat \/ key_in_batch k lst = true ->
                    (1 <= active_count k t')%nat)
      /\ ((forall k, (active_count k t <= 1)%nat) ->
          (forall k, key_in_table k t = false -> (occurrences k lst <= 1)%nat) ->
          forall k, (active_count k t' <= 1)%nat).
Proof.
  intros db lst t Hcan Hplain. unfold bind, Final_data.
  destruct (active_rows_after_Main_logic db lst t Hcan Hplain t)
    as (t' & Hrun & Hcount).
  exists t'. split; [exact Hrun|]. split.
  - intros k Hk. rewrite (Hcount k).
    destruct (key_in_batch k lst && key_in_table k t); [lia|].
    destruct Hk as [Hk|Hk]; [lia|].
    apply (proj1 (occurrences_key_in_batch k lst)) in Hk. lia.
  - intros Hone Hnew k. rewrite (Hcount k).
    destruct (key_in_batch k lst) eqn:Hb, (key_in_table k t) eqn:Ht;
      cbn [andb]; [lia| | |].
    + rewrite (active_count_absent k t Ht). specialize (Hnew k Ht). lia.
    + rewrite (proj2 (occurrences_key_in_batch k lst) Hb).
      specialize (Hone k). lia.
    + rewrite (proj2 (occurrences_key_in_batch k lst) Hb).
      specialize (Hone k). lia.
Qed.

Lemma batch_keeps_keys_active_witness :
  let t := [mkRow 1 (decode (sample_line "0001")) "Y"] in
  let lst := [decode (sample_line "0002"); decode (other_line "0001")] in
  exists t' : Table,
    (final_data <- Final_data ;; Main_logic sqlite_strict lst final_data) t
    = (Ok tt, t')
    /\ (forall k, (1 <= active_count k t)%nat \/ key_in_batch k lst = true ->
                  (1 <= active_count k t')%nat)
    /\ ((forall k, (active_count k t <= 1)%nat) ->
        (forall k, key_in_table k t = false -> (occurrences k lst <= 1)%nat) ->
        forall k, (active_count k t' <= 1)%nat).
Proof.
  intros t lst. apply batch_keeps_keys_active.
  - intros d [<-|[<-|[]]]; vm_compute; repeat split.
  - vm_compute. reflexivity.
Defined.
